(** * Fraud-Insurance: the claim pipeline of [backend/main.py]

    A shallow embedding of the FastAPI handler [upload_claim] and of the
    functions it calls: the dataset loaders, the two text extractors, the
    six regular-expression searches and the rule chain [check_fraud].

    Conventions of the model.
    - A Python [str] is a [string] whose characters are the code points
      0..255 (Latin-1); [Py.isspace] and [Py.lower] are the restrictions of
      [str.isspace] and [str.lower] to that range.
    - Effects are explicit: a computation is a function of the [World]
      (standard output, the files on disk, the two module-level data
      frames) that returns a value or raises, together with the new world.
    - What the operating system and the PDF/OCR engines answer during one
      request is an [Env] value passed to the handler. *)

From Stdlib Require Import ZArith String Ascii List Bool Lia.
From Stdlib Require Import Numbers.DecimalString.
From stdpp Require Import base gmap strings.

Import ListNotations.
Local Open Scope string_scope.
Local Open Scope Z_scope.

(** ** Python string primitives *)

Module Py.

Definition code (c : ascii) : N := N_of_ascii c.

(** [str.isspace] on one character: TAB..CR, FS..US, space, NEL, NBSP. *)
Definition isspace (c : ascii) : bool :=
  let n := code c in
  ((9 <=? n) && (n <=? 13) || (28 <=? n) && (n <=? 32)
   || (n =? 133) || (n =? 160))%N.

(** [str.lower] on one character: A..Z and the Latin-1 capitals
    (U+00C0..U+00DE without the multiplication sign U+00D7). *)
Definition lower_char (c : ascii) : ascii :=
  let n := code c in
  if ((65 <=? n) && (n <=? 90)
      || (192 <=? n) && (n <=? 222) && negb (n =? 215))%N
  then ascii_of_N (n + 32) else c.

Fixpoint lower (s : string) : string :=
  match s with
  | EmptyString => EmptyString
  | String c s' => String (lower_char c) (lower s')
  end.

Fixpoint lstrip (s : string) : string :=
  match s with
  | EmptyString => EmptyString
  | String c s' => if isspace c then lstrip s' else s
  end.

Fixpoint rstrip (s : string) : string :=
  match s with
  | EmptyString => EmptyString
  | String c s' =>
      match rstrip s' with
      | EmptyString => if isspace c then EmptyString else String c EmptyString
      | r => String c r
      end
  end.

Definition strip (s : string) : string := rstrip (lstrip s).

(** [s.split(sep)] for a one-character separator: never the empty list,
    [''.split(',') = ['']]. *)
Fixpoint split (sep : ascii) (s : string) : list string :=
  match s with
  | EmptyString => [EmptyString]
  | String c s' =>
      if Ascii.eqb c sep then EmptyString :: split sep s'
      else match split sep s' with
           | [] => [String c EmptyString]
           | p :: ps => String c p :: ps
           end
  end.

(** [s.replace(c, '')]. *)
Fixpoint remove (c : ascii) (s : string) : string :=
  match s with
  | EmptyString => EmptyString
  | String x s' => if Ascii.eqb x c then remove c s' else String x (remove c s')
  end.

(** [s.endswith(suffix)]. *)
Definition endswith (s suffix : string) : bool :=
  let n := String.length s in
  let k := String.length suffix in
  (k <=? n)%nat && String.eqb (substring (n - k) k s) suffix.

(** Truth value of a string: non-empty. *)
Definition truthy (s : string) : bool :=
  match s with EmptyString => false | _ => true end.

(** [x in xs] for a list (or array) of strings. *)
Definition contains (x : string) (xs : list string) : bool :=
  existsb (String.eqb x) xs.

(** [str(n)] for an integer. *)
Definition str_of_int (n : Z) : string :=
  NilEmpty.string_of_int (Z.to_int n).

End Py.

(** ** Worlds, exceptions and the computation monad *)

(** The exceptions the code tells apart: FastAPI's [HTTPException],
    [ValueError], and any other subclass of [Exception] (OSError,
    OverflowError, AttributeError, ...), each with its message. What
    [except Exception] lets through (KeyboardInterrupt, SystemExit) is
    outside the model. *)
Inductive exn : Type :=
| HTTPException (status_code : Z) (detail : string)
| ValueError (msg : string)
| Exception (msg : string).

(** [str(e)]; Starlette prints an [HTTPException] as "status: detail". *)
Definition str_exn (e : exn) : string :=
  match e with
  | HTTPException status_code detail =>
      Py.str_of_int status_code +:+ ": " +:+ detail
  | ValueError msg | Exception msg => msg
  end.

Inductive Res (A : Type) : Type :=
| Ok (a : A)
| Raise (e : exn).
Arguments Ok {A} a.
Arguments Raise {A} e.

Record disease_row := { Disease : string; Treatment : string }.

(** The column [HospitalName] of the hospital frame, and the rows of the
    disease frame, top to bottom. Cells are strings. *)
Definition hospitals_frame := list string.
Definition diseases_frame := list disease_row.

(** The dictionary [claim_data] that [upload_claim] builds: always these
    six keys, five strings and one integer. *)
Record ClaimData := {
  hospital : string;
  disease : string;
  treatment : string;
  amount : Z;
  patientName : string;
  claimId : string;
}.

(** One call of [print]: a line of text, or the dictionary itself where
    the code prints [claim_data]. *)
Inductive printed : Type :=
| Line (s : string)
| Dict (d : ClaimData).

Record World := {
  stdout : list printed;             (* what was printed, oldest first *)
  files : gset string;               (* paths that exist on disk *)
  g_hospitals_df : hospitals_frame;  (* module global [hospitals_df] *)
  g_diseases_df : diseases_frame;    (* module global [diseases_df] *)
}.

Definition M (A : Type) : Type := World -> Res A * World.

Definition ret {A} (a : A) : M A := fun w => (Ok a, w).

Definition bind {A B} (m : M A) (k : A -> M B) : M B :=
  fun w => match m w with
           | (Ok a, w') => k a w'
           | (Raise e, w') => (Raise e, w')
           end.

Definition raise {A} (e : exn) : M A := fun w => (Raise e, w).

Global Instance M_ret : MRet M := @ret.
Global Instance M_bind : MBind M := fun A B k m => bind m k.

Definition emit (p : printed) : M unit :=
  fun w => (Ok tt, {| stdout := stdout w ++ [p]; files := files w;
                     g_hospitals_df := g_hospitals_df w;
                     g_diseases_df := g_diseases_df w |}).

Definition print (line : string) : M unit := emit (Line line).

Definition set_files (fs : gset string) : M unit :=
  fun w => (Ok tt, {| stdout := stdout w; files := fs;
                     g_hospitals_df := g_hospitals_df w;
                     g_diseases_df := g_diseases_df w |}).

Definition get_world : M World := fun w => (Ok w, w).

(** [try: body except ...: handler]: [handler e] is [None] when no
    [except] clause matches [e], which then propagates. *)
Definition try_except {A} (body : M A) (handler : exn -> option (M A)) : M A :=
  fun w => match body w with
           | (Ok a, w') => (Ok a, w')
           | (Raise e, w') =>
               match handler e with
               | Some h => h w'
               | None => (Raise e, w')
               end
           end.

(** [try: body finally: cleanup]: the cleanup runs on every exit of the
    body; an exception of the cleanup replaces the body's outcome. *)
Definition try_finally {A} (body : M A) (cleanup : M unit) : M A :=
  fun w => match body w with
           | (r, w') =>
               match cleanup w' with
               | (Ok _, w'') => (r, w'')
               | (Raise e, w'') => (Raise e, w'')
               end
           end.

(** The value or exception a computation ends with, and the world it leaves. *)
Definition outcome {A} (m : M A) (w : World) : Res A := fst (m w).
Definition world_after {A} (m : M A) (w : World) : World := snd (m w).

(** ** The rule chain *)

Definition nl : string := String "010"%char EmptyString.

(** [check_fraud(claim_data, hospitals_df, diseases_df)], lines 71-124.
    The two frames are the parameters, which shadow the module globals. *)
Definition check_fraud (claim_data : ClaimData) (hospitals_df : hospitals_frame)
    (diseases_df : diseases_frame) : M (string * string) :=
  let hospital_name := Py.strip (hospital claim_data) in
  let disease := Py.strip (disease claim_data) in
  let treatment := Py.strip (treatment claim_data) in
  let amount := amount claim_data in
  print (nl +:+ "--- Checking for Fraud ---");;
  print ("Hospital Name Extracted: '" +:+ hospital_name +:+ "'");;
  print ("Disease Extracted: '" +:+ disease +:+ "'");;
  print ("Treatment Extracted: '" +:+ treatment +:+ "'");;
  print ("Amount Extracted: " +:+ Py.str_of_int amount);;
  let fraudulent (fraud_reason : string) : M (string * string) :=
    print ("Fraud Detected: " +:+ fraud_reason);;
    mret ("fraudulent", fraud_reason) in
  (* Check for suspicious amounts, then the clean exit *)
  let amount_check : M (string * string) :=
    if amount >? 500000 then
      print ("Suspicious activity detected: " +:+ "Unusually high claim amount");;
      mret ("suspicious", "Unusually high claim amount")
    else
      print "No fraud detected. Claim is clean.";;
      mret ("clean", "All checks passed.") in
  (* Check 1 *)
  if Py.truthy hospital_name && negb (Py.contains hospital_name hospitals_df) then
    fraudulent "Hospital not in dataset"
  else if Py.truthy disease then
    (* Check 2 *)
    let disease_row :=
      List.filter (fun r => String.eqb (Py.lower (Disease r)) (Py.lower disease))
                  diseases_df in
    match disease_row with
    | [] => fraudulent "Disease not in dataset"
    | row0 :: _ =>
        (* Check 3 *)
        if Py.truthy treatment then
          let valid_treatments_str := Treatment row0 in
          let valid_treatments :=
            List.map (fun t => Py.lower (Py.strip t))
                     (Py.split ","%char valid_treatments_str) in
          if negb (Py.contains (Py.lower treatment) valid_treatments) then
            fraudulent "Treatment mismatch for disease"
          else amount_check
        else amount_check
    end
  else amount_check.

(** ** The dataset loaders *)

Definition mock_hospitals : hospitals_frame :=
  ["Apollo Hospital"; "Max Healthcare"; "Fortis Hospital"; "AIIMS";
   "Manipal Hospital"].

Definition mock_diseases : diseases_frame :=
  [ {| Disease := "Diabetes"; Treatment := "Insulin, Metformin" |};
    {| Disease := "Hypertension"; Treatment := "ACE Inhibitors, Diuretics" |};
    {| Disease := "Heart Disease"; Treatment := "Bypass Surgery, Angioplasty" |};
    {| Disease := "Cancer"; Treatment := "Chemotherapy, Radiation" |};
    {| Disease := "Pneumonia"; Treatment := "Antibiotics, Oxygen Therapy" |} ].

(** What the file system answers to a loader: the workbook is absent
    ([None]), or [pd.read_excel] returns a frame or raises. Stripping the
    column names does not touch the cells. *)
Definition dataset (A : Type) : Type := option (Res A).

Definition load_hospitals (file_path : string) (src : dataset hospitals_frame)
  : M hospitals_frame :=
  match src with
  | None =>
      print ("Warning: Hospital dataset not found at " +:+ file_path);;
      mret mock_hospitals
  | Some (Ok hospitals_df) => mret hospitals_df
  | Some (Raise e) =>
      print ("Error loading hospitals dataset: " +:+ str_exn e);;
      mret mock_hospitals
  end.

Definition load_diseases (file_path : string) (src : dataset diseases_frame)
  : M diseases_frame :=
  match src with
  | None =>
      print ("Warning: Disease dataset not found at " +:+ file_path);;
      mret mock_diseases
  | Some (Ok diseases_df) => mret diseases_df
  | Some (Raise e) =>
      print ("Error loading diseases dataset: " +:+ str_exn e);;
      mret mock_diseases
  end.

(** ** Regular expressions

    The fragment of Python's [re] that the six patterns use, compiled with
    [re.IGNORECASE | re.MULTILINE] (no pattern has an anchor, so MULTILINE
    changes nothing). Matching is the backtracking search of [re]: greedy
    quantifiers, alternatives left to right, the leftmost start wins. Every
    repetition in the six patterns is over a single character class. *)

Module Re.

Inductive regex : Type :=
| Eps                              (* empty pattern *)
| Lit (c : ascii)                  (* a literal, compared ignoring case *)
| Class (p : ascii -> bool)        (* a class or escape such as \s *)
| Seq (r1 r2 : regex)
| Alt (r1 r2 : regex)              (* r1|r2 *)
| Opt (r : regex)                  (* r? , greedy *)
| Star (p : ascii -> bool)         (* [p]* , greedy *)
| Plus (p : ascii -> bool)         (* [p]+ , greedy *)
| Group1 (r : regex).              (* the capturing group (r) *)

(** [\s], [\d], [\w] and [.] for str patterns, on code points 0..255. *)
Definition space : ascii -> bool := Py.isspace.

Definition digit (c : ascii) : bool :=
  let n := Py.code c in ((48 <=? n) && (n <=? 57))%N.

Definition word (c : ascii) : bool :=
  let n := Py.code c in
  ((48 <=? n) && (n <=? 57) || (65 <=? n) && (n <=? 90)
   || (97 <=? n) && (n <=? 122) || (n =? 95)
   || (n =? 170) || (n =? 178) || (n =? 179) || (n =? 181)
   || (n =? 185) || (n =? 186) || (188 <=? n) && (n <=? 190)
   || (192 <=? n) && (n <=? 214) || (216 <=? n) && (n <=? 246)
   || (248 <=? n))%N.

Definition dot (c : ascii) : bool := negb (Ascii.eqb c "010"%char).

Definition chr (c : ascii) : ascii -> bool := fun x => Ascii.eqb x c.

Definition any_of (ps : list (ascii -> bool)) : ascii -> bool :=
  fun x => existsb (fun p => p x) ps.

(** A literal word, and a sequence of items. *)
Fixpoint lit (s : string) : regex :=
  match s with
  | EmptyString => Eps
  | String c s' => Seq (Lit c) (lit s')
  end.

Definition seq (rs : list regex) : regex := fold_right Seq Eps rs.

(** The text between two positions of the subject, given as suffixes. *)
Definition consumed (from to : string) : string :=
  substring 0 (String.length from - String.length to) from.

Section Matcher.
Context {R : Type}.

(** Greedy [[p]*]: take the longest run first, give one character back
    each time the rest of the pattern fails. *)
Fixpoint star (p : ascii -> bool) (s : string) (k : string -> option R)
  : option R :=
  match s with
  | EmptyString => k s
  | String x s' =>
      if p x then
        match star p s' k with
        | Some r => Some r
        | None => k s
        end
      else k s
  end.

(** [bt r s g k]: match [r] at the head of [s] with group 1 currently
    [g], then continue with [k] on the rest; [None] is failure and
    makes the caller try its next choice. *)
Fixpoint bt (r : regex) (s : string) (g : option string)
    (k : string -> option string -> option R) : option R :=
  match r with
  | Eps => k s g
  | Lit c =>
      match s with
      | String x s' =>
          if Ascii.eqb (Py.lower_char x) (Py.lower_char c) then k s' g else None
      | EmptyString => None
      end
  | Class p =>
      match s with
      | String x s' => if p x then k s' g else None
      | EmptyString => None
      end
  | Seq r1 r2 => bt r1 s g (fun s' g' => bt r2 s' g' k)
  | Alt r1 r2 =>
      match bt r1 s g k with
      | Some res => Some res
      | None => bt r2 s g k
      end
  | Opt r1 =>
      match bt r1 s g k with
      | Some res => Some res
      | None => k s g
      end
  | Star p => star p s (fun s' => k s' g)
  | Plus p =>
      match s with
      | String x s' => if p x then star p s' (fun s'' => k s'' g) else None
      | EmptyString => None
      end
  | Group1 r1 => bt r1 s g (fun s' _ => k s' (Some (consumed s s')))
  end.
End Matcher.

(** A match object: what [.group(1)] holds. *)
Record Match := { group1 : option string }.

(** [re.search(r, text, re.IGNORECASE | re.MULTILINE)]: the first start
    position, from the left, at which the pattern matches. *)
Fixpoint search (r : regex) (text : string) : option Match :=
  match bt r text None (fun _ g => Some {| group1 := g |}) with
  | Some m => Some m
  | None =>
      match text with
      | EmptyString => None
      | String _ text' => search r text'
      end
  end.

(** [m.group(1)]; [None.strip()] would be an AttributeError. *)
Definition group (m : Match) : M string :=
  match group1 m with
  | Some s => mret s
  | None => raise (Exception "'NoneType' object has no attribute 'strip'")
  end.

End Re.

(** ** The six field patterns, lines 196-201 *)

Import Re.

(** [Hospital(?:\s+Name)?:?\s*(.+)] *)
Definition hospital_re : regex :=
  seq [lit "Hospital"; Opt (seq [Plus space; lit "Name"]); Opt (Lit ":");
       Star space; Group1 (Plus dot)].

(** [Disease[:\-\s]+(.+)] *)
Definition disease_re : regex :=
  seq [lit "Disease"; Plus (any_of [chr ":"; chr "-"; space]); Group1 (Plus dot)].

(** [Treatment[:\-\s]+(.+)] *)
Definition treatment_re : regex :=
  seq [lit "Treatment"; Plus (any_of [chr ":"; chr "-"; space]); Group1 (Plus dot)].

(** The currency class of the amount pattern as the file has it: the
    rupee sign mis-decoded into U+00E2, U+201A, U+00B9, then the dollar.
    U+201A is not a character of the model; U+00E2 also matches its
    capital under IGNORECASE. *)
Definition currency (c : ascii) : bool :=
  Ascii.eqb (Py.lower_char c) "226"%char || Ascii.eqb c "185"%char
  || Ascii.eqb c "$"%char.

(** [(?:Claimed\s+)?Amount:?\s*[..$]?[\s]*([0-9,\.]+)] *)
Definition amount_re : regex :=
  seq [Opt (seq [lit "Claimed"; Plus space]); lit "Amount"; Opt (Lit ":");
       Star space; Opt (Class currency); Star space;
       Group1 (Plus (any_of [digit; chr ","; chr "."]))].

(** [(?:Policy\s+Holder|Patient)\s+Name:?\s*(.+)] *)
Definition patient_name_re : regex :=
  seq [Alt (seq [lit "Policy"; Plus space; lit "Holder"]) (lit "Patient");
       Plus space; lit "Name"; Opt (Lit ":"); Star space; Group1 (Plus dot)].

(** [Claim\s+(?:No|ID|Number):?\s*([\w\d/]+)] *)
Definition claim_id_re : regex :=
  seq [lit "Claim"; Plus space; Alt (lit "No") (Alt (lit "ID") (lit "Number"));
       Opt (Lit ":"); Star space; Group1 (Plus (any_of [word; digit; chr "/"]))].

(** ** [int(float(amount_str))]

    The capture of the amount pattern holds digits, commas and dots only,
    and the commas are removed before the conversion; [float] is modelled
    on that alphabet. The value is rounded to the nearest binary64 number
    (ties to even) as [float] does, and truncated as [int] does. *)

Module Float.

Definition digit_val (c : ascii) : option Z :=
  if Re.digit c then Some (Z.of_N (Py.code c) - 48) else None.

(** Reads [digits [. digits]] with at least one digit: the numerator and
    the power of ten it is divided by. [None] is [float]'s ValueError. *)
Fixpoint read_decimal (s : string) (seen_dot : bool) (num scale ndigits : Z)
  : option (Z * Z) :=
  match s with
  | EmptyString => if 0 <? ndigits then Some (num, scale) else None
  | String c s' =>
      if Ascii.eqb c "."%char then
        if seen_dot then None else read_decimal s' true num scale ndigits
      else
        match digit_val c with
        | Some d =>
            read_decimal s' seen_dot (10 * num + d)
                         (if seen_dot then 10 * scale else scale) (ndigits + 1)
        | None => None
        end
  end.

(** Nearest integer to [a / b], ties to the even one ([0 <= a], [0 < b]). *)
Definition round_half_even (a b : Z) : Z :=
  let q := a / b in
  let r := a mod b in
  if 2 * r <? b then q
  else if b <? 2 * r then q + 1
  else if Z.even q then q else q + 1.

(** [int(x)] for [x] the binary64 number nearest to [num / den]; [None]
    when that number is infinite. Below 1/2 the rounded value stays
    below 1, so the integer is 0. *)
Definition int_of_nearest_double (num den : Z) : option Z :=
  if num =? 0 then Some 0 else
  let e0 := Z.log2 num - Z.log2 den in
  let ge_pow2 := (* 2^e0 <= num / den *)
    if 0 <=? e0 then 2 ^ e0 * den <=? num else den <=? num * 2 ^ (- e0) in
  let e := if ge_pow2 then e0 else e0 - 1 in
  if e <? -1 then Some 0 else
  let shift := 52 - e in
  let m :=
    if 0 <=? shift then round_half_even (num * 2 ^ shift) den
    else round_half_even num (den * 2 ^ (- shift)) in
  let v := if 0 <=? shift then m / 2 ^ shift else m * 2 ^ (- shift) in
  if 2 ^ 1024 <=? v then None else Some v.

Definition int_float (s : string) : M Z :=
  match read_decimal s false 0 1 0 with
  | None => raise (ValueError ("could not convert string to float: '" +:+ s +:+ "'"))
  | Some (num, den) =>
      match int_of_nearest_double num den with
      | Some n => mret n
      | None => raise (Exception "cannot convert float infinity to integer")
      end
  end.

End Float.

(** ** Text extraction *)

Record UploadFile := { filename : string }.

(** What the operating system and the engines answer during one request. *)
Record Env := {
  (** [open(temp_file_path, "wb")] raises this *)
  os_open_wb : option exn;
  (** [shutil.copyfileobj(file.file, buffer)] raises this *)
  shutil_copyfileobj : option exn;
  (** pdfplumber: the [extract_text()] of each page, or what it raises *)
  pdf_pages : Res (list (option string));
  (** [Image.open] and [pytesseract.image_to_string], or what they raise *)
  image_to_string : Res string;
  (** [os.remove(temp_file_path)] raises this *)
  os_remove : option exn;
}.

Definition lift {A} (r : Res A) : M A :=
  match r with Ok a => mret a | Raise e => raise e end.

Definition may_raise (o : option exn) : M unit :=
  match o with None => mret tt | Some e => raise e end.

(** [except Exception as e: h e] as a handler for [try_except]. *)
Definition except_Exception {A} (h : exn -> M A) : exn -> option (M A) :=
  fun e => Some (h e).

(** Lines 127-141. *)
Definition extract_text_from_pdf (env : Env) (file_path : string) : M string :=
  try_except
    (pages ← lift (pdf_pages env);
     let text :=
       fold_left (fun text page =>
                    match page with
                    | Some page_text =>
                        if Py.truthy page_text then text +:+ page_text +:+ nl else text
                    | None => text
                    end) pages "" in
     mret (Py.strip text))
    (except_Exception (fun e =>
       print ("Error extracting text from PDF: " +:+ str_exn e);;
       mret "")).

(** Lines 143-153. *)
Definition extract_text_from_image (env : Env) (file_path : string) : M string :=
  try_except
    (text ← lift (image_to_string env);
     mret (Py.strip text))
    (except_Exception (fun e =>
       print ("Error extracting text from image: " +:+ str_exn e);;
       mret "")).

(** The dispatch on the file type, lines 185-188 of [upload_claim]. *)
Definition extract_text (env : Env) (file : UploadFile) (temp_file_path : string)
  : M string :=
  if Py.endswith (Py.lower (filename file)) ".pdf"
  then extract_text_from_pdf env temp_file_path
  else extract_text_from_image env temp_file_path.

(** ** Field parsing, lines 196-241 of [upload_claim] *)

(** [s.split('\n')[0]] *)
Definition first_line (s : string) : string :=
  hd EmptyString (Py.split "010"%char s).

Definition parse_fields (text : string) : M ClaimData :=
  let hospital_match := search hospital_re text in
  let disease_match := search disease_re text in
  let treatment_match := search treatment_re text in
  let amount_match := search amount_re text in
  let patient_name_match := search patient_name_re text in
  let claim_id_match := search claim_id_re text in
  hospital ← match hospital_match with
             | Some m => g ← group m; mret (first_line (Py.strip g))
             | None => mret ""
             end;
  disease ← match disease_match with
            | Some m => g ← group m; mret (first_line (Py.strip g))
            | None => mret ""
            end;
  treatment ← match treatment_match with
              | Some m => g ← group m; mret (first_line (Py.strip g))
              | None => mret ""
              end;
  amount ← match amount_match with
           | Some m =>
               g ← group m;
               let amount_str := Py.strip (Py.remove ","%char g) in
               try_except (Float.int_float amount_str)
                 (fun e => match e with
                           | ValueError _ => Some (mret 0)
                           | _ => None
                           end)
           | None => mret 0
           end;
  patient_name ← match patient_name_match with
                 | Some m => g ← group m; mret (first_line (Py.strip g))
                 | None => mret ""
                 end;
  claim_id ← match claim_id_match with
             | Some m => g ← group m; mret (Py.strip g)
             | None => mret ""
             end;
  mret {| hospital := hospital; disease := disease; treatment := treatment;
          amount := amount; patientName := patient_name; claimId := claim_id |}.

(** ** The handler [upload_claim], lines 173-269 *)

Record ExtractedData := {
  fields : ClaimData;
  fraudStatus : string;
  fraudReason : string;
}.

Record JSONResponse := {
  status_code : Z;
  status : string;
  extractedData : ExtractedData;
}.

Definition extraction_failed : exn :=
  HTTPException 400 "Failed to extract text from the document.".

Definition internal_error (e : exn) : exn :=
  HTTPException 500 ("An unexpected error occurred: " +:+ str_exn e).

(** The [try] block, lines 180-256. *)
Definition upload_claim_try (env : Env) (file : UploadFile)
    (temp_file_path : string) : M JSONResponse :=
  (* Save uploaded file temporarily *)
  may_raise (os_open_wb env);;
  w ← get_world;
  set_files ({[ temp_file_path ]} ∪ files w);;
  may_raise (shutil_copyfileobj env);;
  (* Extract text based on file type *)
  text ← extract_text env file temp_file_path;
  if negb (Py.truthy text) then raise extraction_failed else
  print ("Extracted text: " +:+ substring 0 500 text +:+ "...");;
  claim_data ← parse_fields text;
  print (nl +:+ "--- Extracted Data for Fraud Check ---");;
  emit (Dict claim_data);;
  print "------------------------------------";;
  (* Perform fraud check *)
  w ← get_world;
  verdict ← check_fraud claim_data (g_hospitals_df w) (g_diseases_df w);
  mret {| status_code := 200; status := "success";
          extractedData := {| fields := claim_data;
                              fraudStatus := fst verdict;
                              fraudReason := snd verdict |} |}.

(** The [except] clauses, lines 258-262. *)
Definition upload_claim_except (e : exn) : option (M JSONResponse) :=
  match e with
  | HTTPException _ _ => Some (raise e)
  | _ =>
      Some (print ("An unexpected error occurred: " +:+ str_exn e);;
            raise (internal_error e))
  end.

(** The [finally] clause, lines 263-269. *)
Definition upload_claim_finally (env : Env) (temp_file_path : string) : M unit :=
  w ← get_world;
  if decide (temp_file_path ∈ files w) then
    try_except
      (may_raise (os_remove env);;
       set_files (files w ∖ {[ temp_file_path ]}))
      (except_Exception (fun e =>
         print ("Error removing temp file: " +:+ str_exn e)))
  else mret tt.

Definition upload_claim (env : Env) (file : UploadFile) : M JSONResponse :=
  let temp_file_path := "temp_" +:+ filename file in
  try_finally
    (try_except (upload_claim_try env file temp_file_path) upload_claim_except)
    (upload_claim_finally env temp_file_path).

(** ** Start-up, lines 155-163 *)

Definition set_frames (h : hospitals_frame) (d : diseases_frame) : M unit :=
  fun w => (Ok tt, {| stdout := stdout w; files := files w;
                     g_hospitals_df := h; g_diseases_df := d |}).

Definition startup (hospital_path : string) (hospital_src : dataset hospitals_frame)
    (disease_path : string) (disease_src : dataset diseases_frame) : M unit :=
  try_except
    (hospitals_df ← load_hospitals hospital_path hospital_src;
     diseases_df ← load_diseases disease_path disease_src;
     set_frames hospitals_df diseases_df;;
     print "Datasets loaded successfully")
    (except_Exception (fun e =>
       print ("Error loading datasets: " +:+ str_exn e);;
       set_frames [] [])).

(** ** Vocabulary of the properties *)

(** The value returned by [check_fraud], without the printing. *)
Definition verdict (claim_data : ClaimData) (hospitals_df : hospitals_frame)
    (diseases_df : diseases_frame) : string * string :=
  let hospital_name := Py.strip (hospital claim_data) in
  let disease := Py.strip (disease claim_data) in
  let treatment := Py.strip (treatment claim_data) in
  let by_amount :=
    if amount claim_data >? 500000
    then ("suspicious", "Unusually high claim amount")
    else ("clean", "All checks passed.") in
  if Py.truthy hospital_name && negb (Py.contains hospital_name hospitals_df) then
    ("fraudulent", "Hospital not in dataset")
  else if Py.truthy disease then
    match List.filter (fun r => String.eqb (Py.lower (Disease r)) (Py.lower disease))
                      diseases_df with
    | [] => ("fraudulent", "Disease not in dataset")
    | row0 :: _ =>
        if Py.truthy treatment
           && negb (Py.contains (Py.lower treatment)
                      (List.map (fun t => Py.lower (Py.strip t))
                                (Py.split ","%char (Treatment row0))))
        then ("fraudulent", "Treatment mismatch for disease")
        else by_amount
    end
  else by_amount.

Definition with_stdout (w : World) (out : list printed) : World :=
  {| stdout := out; files := files w; g_hospitals_df := g_hospitals_df w;
     g_diseases_df := g_diseases_df w |}.

(** [m] returns [v] whatever the world, and only prints: the files and
    the module globals are left as they were. *)
Definition returns {A} (m : M A) (v : A) : Prop :=
  forall w, exists out, m w = (Ok v, with_stdout w (stdout w ++ out)).

(** The conditions of the four rules of section 4.4 of the
    specification, on a hospital [h], a disease [d] and a treatment [t]. *)
Section Rules.
Variable hospitals : hospitals_frame.
Variable diseases : diseases_frame.

(** Case-insensitive equality. *)
Definition ci_equal (x y : string) : Prop := Py.lower x = Py.lower y.

(** Rule 1: non-empty and no exact match in the hospital table. *)
Definition hospital_unknown (h : string) : Prop :=
  h <> "" /\ ~ In h hospitals.

(** Rule 2: non-empty and no case-insensitive match in the disease table. *)
Definition disease_unknown (d : string) : Prop :=
  d <> "" /\ forall row, In row diseases -> ~ ci_equal (Disease row) d.

(** [row] is the matched disease: the first row, from the top, whose
    disease equals [d] up to case. *)
Definition matched_row (d : string) (row : disease_row) : Prop :=
  exists before after,
    diseases = (before ++ row :: after)%list /\ ci_equal (Disease row) d /\
    forall r, In r before -> ~ ci_equal (Disease r) d.

(** The treatment list of a row: split on commas, each entry trimmed
    and lowercased. *)
Definition treatments_of (row : disease_row) : list string :=
  List.map (fun t => Py.lower (Py.strip t)) (Py.split ","%char (Treatment row)).

(** Rule 3: the disease matched, the treatment is non-empty and is not,
    lowercased, among the treatments of the matched row. *)
Definition treatment_mismatch (d t : string) : Prop :=
  d <> "" /\ t <> "" /\
  exists row, matched_row d row /\ ~ In (Py.lower t) (treatments_of row).

(** None of rules 1-3 fires. *)
Definition other_checks_pass (h d t : string) : Prop :=
  ~ hospital_unknown h /\ ~ disease_unknown d /\ ~ treatment_mismatch d t.
End Rules.

Definition fraudulent (reason : string) : Res (string * string) :=
  Ok ("fraudulent", reason).
Definition suspicious : Res (string * string) :=
  Ok ("suspicious", "Unusually high claim amount").
Definition clean : Res (string * string) :=
  Ok ("clean", "All checks passed.").

(** ** Sample inputs *)

Definition empty_world : World :=
  {| stdout := []; files := ∅; g_hospitals_df := []; g_diseases_df := [] |}.

(** The world once the module is loaded with both workbooks absent. *)
Definition booted : World :=
  world_after (startup "datasets/Hospital_Dataset.xlsx" None
                       "datasets/disease_treatment_dataset.xlsx" None)
              empty_world.

Definition claim (h d t : string) (a : Z) : ClaimData :=
  {| hospital := h; disease := d; treatment := t; amount := a;
     patientName := ""; claimId := "" |}.

Definition with_amount (cd : ClaimData) (a : Z) : ClaimData :=
  {| hospital := hospital cd; disease := disease cd; treatment := treatment cd;
     amount := a; patientName := patientName cd; claimId := claimId cd |}.

(** A hospital field that is one space. *)
Definition blank_hospital_claim : ClaimData := claim " " "" "" 0.

(** A hospital table with an untrimmed cell, and a claim that repeats it. *)
Definition padded_hospitals : hospitals_frame := [" AIIMS"].
Definition padded_hospital_claim : ClaimData := claim " AIIMS" "" "" 0.

(** Every character of [s] satisfies [p]. *)
Fixpoint all_chars (p : ascii -> bool) (s : string) : bool :=
  match s with
  | EmptyString => true
  | String c s' => p c && all_chars p s'
  end.

Definition not_comma (c : ascii) : bool := negb (Ascii.eqb c ","%char).

(** [s] is made of whitespace only. *)
Definition blank (s : string) : bool := all_chars Py.isspace s.

(** A treatment cell that lists Insulin and Metformin, with whitespace
    [p1] .. [p4] around the two entries. *)
Definition insulin_metformin (p1 p2 p3 p4 : string) : string :=
  p1 +:+ "Insulin" +:+ p2 +:+ "," +:+ p3 +:+ "Metformin" +:+ p4.

(** The text of the round trip, four lines. *)
Definition sample_text : string :=
  "Hospital: Apollo Hospital" +:+ nl +:+ "Disease: Diabetes" +:+ nl
  +:+ "Treatment: Insulin" +:+ nl +:+ "Amount: 1000".

(** A request whose upload is saved and whose OCR reads [text]. *)
Definition ocr_reads (text : string) : Env :=
  {| os_open_wb := None; shutil_copyfileobj := None; pdf_pages := Ok [];
     image_to_string := Ok text; os_remove := None |}.

(** None of the six patterns is found in [text]. *)
Definition no_pattern_matches (text : string) : Prop :=
  search hospital_re text = None /\ search disease_re text = None /\
  search treatment_re text = None /\ search amount_re text = None /\
  search patient_name_re text = None /\ search claim_id_re text = None.

Definition empty_claim : ClaimData := claim "" "" "" 0.

(** A successful match of [r] always sets group 1. *)
Fixpoint sets_group (r : regex) : bool :=
  match r with
  | Group1 _ => true
  | Seq r1 r2 => sets_group r1 || sets_group r2
  | Alt r1 r2 => sets_group r1 && sets_group r2
  | _ => false
  end.

(** The path of the temporary file, line 178. *)
Definition temp_path (file : UploadFile) : string := "temp_" +:+ filename file.

(** A request whose upload cannot be written. *)
Definition disk_full : Env :=
  {| os_open_wb := None; shutil_copyfileobj := Some (Exception "No space left on device");
     pdf_pages := Ok []; image_to_string := Ok ""; os_remove := None |}.

(** A request that goes through, but whose temporary file cannot be
    removed (it is still held open, say). *)
Definition remove_denied : Env :=
  {| os_open_wb := None; shutil_copyfileobj := None; pdf_pages := Ok [];
     image_to_string := Ok sample_text;
     os_remove := Some (Exception "The process cannot access the file") |}.

Definition scan : UploadFile := {| filename := "scan.png" |}.

(** ** Further vocabulary *)

Definition with_treatment (cd : ClaimData) (t : string) : ClaimData :=
  {| hospital := hospital cd; disease := disease cd; treatment := t;
     amount := amount cd; patientName := patientName cd; claimId := claimId cd |}.


(** ** The status routes, lines 165-171 *)

Record Health := {
  health_status : string;
  hospitals_count : nat;
  diseases_count : nat;
}.

Definition root : M (string * string) :=
  mret ("Insurance Fraud Detection API", "running").

Definition health_check : M Health :=
  w ← get_world;
  mret {| health_status := "healthy";
          hospitals_count := List.length (g_hospitals_df w);
          diseases_count := List.length (g_diseases_df w) |}.

(** The frame a loader ends with: the workbook when it was read, the
    mock table otherwise. *)
Definition loaded {A} (mock : A) (src : dataset A) : A :=
  match src with
  | Some (Ok frame) => frame
  | _ => mock
  end.

(** A page of a PDF without usable text. *)
Definition page_blank (page : option string) : bool :=
  match page with
  | None => true
  | Some page_text => blank page_text
  end.

Definition is_pdf (file : UploadFile) : bool :=
  Py.endswith (Py.lower (filename file)) ".pdf".

(** [s] is empty or starts with a character that is not whitespace. *)
Definition head_not_space (s : string) : Prop :=
  match s with
  | EmptyString => True
  | String c _ => Py.isspace c = false
  end.

(** The engine chosen for [file] fails or finds nothing but whitespace. *)
Definition nothing_read (env : Env) (file : UploadFile) : Prop :=
  if is_pdf file then
    (exists e, pdf_pages env = Raise e)
    \/ (exists pages, pdf_pages env = Ok pages /\ forallb page_blank pages = true)
  else
    (exists e, image_to_string env = Raise e)
    \/ (exists text, image_to_string env = Ok text /\ blank text = true).

(** An upload that is saved, as a PDF with the given pages. *)
Definition pdf_with (pages : Res (list (option string))) : Env :=
  {| os_open_wb := None; shutil_copyfileobj := None; pdf_pages := pages;
     image_to_string := Ok sample_text; os_remove := None |}.

Definition report : UploadFile := {| filename := "Report.PDF" |}.

(** ** Vocabulary for the parser *)

(** [r] ends with the capturing group [([p]+)]. *)
Inductive captures (p : ascii -> bool) : regex -> Prop :=
| captures_last : captures p (Seq (Group1 (Plus p)) Eps)
| captures_seq (a r : regex) : captures p r -> captures p (Seq a r).

(** [s] has no surrounding whitespace and no line break. *)
Definition trimmed_line (s : string) : Prop :=
  Py.strip s = s /\ all_chars Re.dot s = true.

Definition overflow_error : exn :=
  Exception "cannot convert float infinity to integer".

(** The success response for the fields [cd] in the world [w]. *)
Definition success (cd : ClaimData) (w : World) : JSONResponse :=
  {| status_code := 200; status := "success";
     extractedData :=
       {| fields := cd;
          fraudStatus := fst (verdict cd (g_hospitals_df w) (g_diseases_df w));
          fraudReason := snd (verdict cd (g_hospitals_df w) (g_diseases_df w)) |} |}.

Fixpoint nines (n : nat) : string :=
  match n with
  | O => EmptyString
  | S k => String "9"%char (nines k)
  end.

(** ** Vocabulary for the footprint of a request *)

(** [m] relates every world to the world it leaves by [R]. *)
Definition keeps (R : World -> World -> Prop) {A} (m : M A) : Prop :=
  forall w, R w (world_after m w).


(** * Properties *)

(** ** What [check_fraud] returns and what it does to the world *)

Create HintDb returns.

Lemma returns_mret {A} (v : A) : returns (mret v) v.
Proof.
  intros w. exists []. unfold with_stdout. rewrite app_nil_r.
  destruct w; reflexivity.
Qed.

Lemma returns_print {A} (line : string) (m : M A) (v : A) :
  returns m v -> returns (print line;; m) v.
Proof.
  intros Hm w. unfold mbind, M_bind, bind, print, emit.
  destruct (Hm (with_stdout w (stdout w ++ [Line line]))) as [out Hout].
  exists (Line line :: out).
  unfold with_stdout in *. cbn [stdout files g_hospitals_df g_diseases_df] in *.
  rewrite Hout, <- app_assoc. reflexivity.
Qed.

#[local] Hint Resolve returns_mret returns_print : returns.

Lemma check_fraud_returns (cd : ClaimData) (hs : hospitals_frame)
    (ds : diseases_frame) :
  returns (check_fraud cd hs ds) (verdict cd hs ds).
Proof.
  unfold check_fraud, verdict.
  repeat apply returns_print.
  destruct (Py.truthy (Py.strip (hospital cd)) && _); auto with returns.
  destruct (Py.truthy (Py.strip (disease cd))).
  - destruct (List.filter _ ds) as [|row0 rows]; auto with returns.
    destruct (Py.truthy (Py.strip (treatment cd))); cbn [andb].
    + destruct (negb _); auto with returns.
      destruct (amount cd >? 500000); auto with returns.
    + destruct (amount cd >? 500000); auto with returns.
  - destruct (amount cd >? 500000); auto with returns.
Qed.

Lemma check_fraud_outcome (cd : ClaimData) (hs : hospitals_frame)
    (ds : diseases_frame) (w : World) :
  outcome (check_fraud cd hs ds) w = Ok (verdict cd hs ds).
Proof.
  unfold outcome. destruct (check_fraud_returns cd hs ds w) as [out ->].
  reflexivity.
Qed.

(** ** Booleans of the code against the conditions of the rules *)

Lemma truthy_true (s : string) : Py.truthy s = true <-> s <> "".
Proof. destruct s; cbn; split; intros; congruence. Qed.

Lemma truthy_false (s : string) : Py.truthy s = false <-> s = "".
Proof. destruct s; cbn; split; intros; congruence. Qed.

Lemma contains_In (x : string) (xs : list string) :
  Py.contains x xs = true <-> In x xs.
Proof.
  unfold Py.contains. rewrite existsb_exists. split.
  - intros (y & Hy & Heq). apply String.eqb_eq in Heq. now subst.
  - intros Hx. exists x. split; [assumption | apply String.eqb_refl].
Qed.

Lemma contains_not_In (x : string) (xs : list string) :
  Py.contains x xs = false <-> ~ In x xs.
Proof.
  rewrite <- contains_In. destruct (Py.contains x xs); split; congruence.
Qed.

Section DiseaseLookup.
Variable ds : diseases_frame.
Variable d : string.

Local Abbreviation hit :=
  (fun r : disease_row => String.eqb (Py.lower (Disease r)) (Py.lower d)).

Lemma hit_ci_equal (r : disease_row) : hit r = true <-> ci_equal (Disease r) d.
Proof. unfold ci_equal. apply String.eqb_eq. Qed.

Lemma filter_nil_unmatched :
  List.filter hit ds = [] <-> forall row, In row ds -> ~ ci_equal (Disease row) d.
Proof.
  split.
  - intros Hnil row Hin Heq.
    assert (Hf : In row (List.filter hit ds))
      by (apply filter_In; split; [assumption | now apply hit_ci_equal]).
    rewrite Hnil in Hf. destruct Hf.
  - intros Hno. induction ds as [|r rs IH]; [reflexivity|].
    cbn. destruct (hit r) eqn:Hr.
    + exfalso. apply (Hno r); [now left | now apply hit_ci_equal].
    + apply IH. intros row Hin. apply Hno. now right.
Qed.

Lemma filter_head_matched (row : disease_row) (rest : list disease_row) :
  List.filter hit ds = row :: rest -> matched_row ds d row.
Proof.
  unfold matched_row. induction ds as [|r rs IH]; cbn; [discriminate|].
  destruct (hit r) eqn:Hr.
  - intros [= -> _]. exists [], rs. repeat split.
    + now apply hit_ci_equal.
    + intros r0 [].
  - intros Hf. destruct (IH Hf) as (before & after & -> & Heq & Hno).
    exists (r :: before), after. repeat split; [assumption|].
    intros r0 [<- | Hin]; [|now apply Hno].
    intros Hc. apply hit_ci_equal in Hc. congruence.
Qed.

Lemma matched_filter_head (row : disease_row) :
  matched_row ds d row -> exists rest, List.filter hit ds = row :: rest.
Proof.
  intros (before & after & -> & Heq & Hno).
  rewrite List.filter_app.
  assert (Hb : List.filter hit before = []).
  { clear -Hno. induction before as [|r rs IH]; [reflexivity|].
    cbn. destruct (hit r) eqn:Hr.
    - exfalso. apply (Hno r); [now left | now apply hit_ci_equal].
    - apply IH. intros r0 Hin. apply Hno. now right. }
  rewrite Hb. cbn. apply hit_ci_equal in Heq. rewrite Heq.
  now eexists.
Qed.
End DiseaseLookup.

(** ** The rule chain *)

(** The verdict from the conditions, the way the chain reads them. *)
Lemma verdict_cases (cd : ClaimData) (hs : hospitals_frame) (ds : diseases_frame) :
  let h := Py.strip (hospital cd) in
  let d := Py.strip (disease cd) in
  let t := Py.strip (treatment cd) in
  (hospital_unknown hs h /\ verdict cd hs ds = ("fraudulent", "Hospital not in dataset"))
  \/ (~ hospital_unknown hs h /\ disease_unknown ds d
      /\ verdict cd hs ds = ("fraudulent", "Disease not in dataset"))
  \/ (~ hospital_unknown hs h /\ ~ disease_unknown ds d /\ treatment_mismatch ds d t
      /\ verdict cd hs ds = ("fraudulent", "Treatment mismatch for disease"))
  \/ (other_checks_pass hs ds h d t
      /\ verdict cd hs ds =
           if amount cd >? 500000
           then ("suspicious", "Unusually high claim amount")
           else ("clean", "All checks passed.")).
Proof.
  intros h d t. unfold verdict. fold h d t.
  destruct (Py.truthy h) eqn:Hh; cbn [andb].
  1: destruct (Py.contains h hs) eqn:Hc; cbn [negb].
  2: { left. split; [split|reflexivity].
       - now apply truthy_true.
       - now apply contains_not_In. }
  all: assert (Hnh : ~ hospital_unknown hs h)
    by (intros [Hne Hnin];
        first [ apply Hnin; now apply contains_In
              | apply truthy_false in Hh; congruence ]).
  all: right.
  all: destruct (Py.truthy d) eqn:Hd.
  all: try (do 2 right; repeat split; try assumption;
            apply truthy_false in Hd;
            [ intros [Hne _]; congruence | intros [Hne _]; congruence ]).
  all: destruct (List.filter _ ds) as [|row0 rows] eqn:Hf.
  all: try (left; repeat split; try assumption;
            [ now apply truthy_true | now apply filter_nil_unmatched ]).
  all: right.
  all: pose proof (filter_head_matched ds d row0 rows Hf) as Hm.
  all: assert (Hnd : ~ disease_unknown ds d)
    by (intros [_ Hno]; destruct Hm as (b & a & -> & Heq & _);
        apply (Hno row0); [apply in_elt | assumption]).
  all: destruct (Py.truthy t) eqn:Ht; cbn [andb].
  all: try destruct (Py.contains (Py.lower t) _) eqn:Hc2; cbn [negb].
  all: try (left; repeat split; try assumption;
            [ now apply truthy_true | now apply truthy_true
            | exists row0; split; [assumption | now apply contains_not_In] ]).
  all: right; repeat split; try assumption.
  all: intros (_ & Hne & row & Hrow & Hnin).
  all: try (apply truthy_false in Ht; congruence).
  all: destruct (matched_filter_head ds d row Hrow) as [rest Hrest].
  all: rewrite Hf in Hrest; injection Hrest as <- _.
  all: apply Hnin; now apply contains_In.
Qed.

Lemma hospital_unknown_iff (hs : hospitals_frame) (h : string) :
  hospital_unknown hs h <-> Py.truthy h && negb (Py.contains h hs) = true.
Proof.
  unfold hospital_unknown.
  rewrite andb_true_iff, negb_true_iff, truthy_true, contains_not_In.
  reflexivity.
Qed.

Lemma disease_unknown_iff (ds : diseases_frame) (d : string) :
  disease_unknown ds d <->
  Py.truthy d = true /\
  List.filter (fun r => String.eqb (Py.lower (Disease r)) (Py.lower d)) ds = [].
Proof.
  unfold disease_unknown. rewrite truthy_true, filter_nil_unmatched.
  reflexivity.
Qed.

Lemma matched_row_iff (ds : diseases_frame) (d : string) (row : disease_row) :
  matched_row ds d row <->
  hd_error (List.filter (fun r => String.eqb (Py.lower (Disease r)) (Py.lower d)) ds)
  = Some row.
Proof.
  split.
  - intros Hm. destruct (matched_filter_head ds d row Hm) as [rest ->].
    reflexivity.
  - destruct (List.filter _ ds) as [|r rest] eqn:Hf; cbn; [discriminate|].
    intros [= ->]. eapply filter_head_matched, Hf.
Qed.

Lemma matched_row_unique (ds : diseases_frame) (d : string) (r1 r2 : disease_row) :
  matched_row ds d r1 -> matched_row ds d r2 -> r1 = r2.
Proof. rewrite !matched_row_iff. congruence. Qed.

Lemma verdict_by_amount (cd : ClaimData) (hs : hospitals_frame) (ds : diseases_frame) :
  other_checks_pass hs ds (Py.strip (hospital cd)) (Py.strip (disease cd))
                    (Py.strip (treatment cd)) ->
  verdict cd hs ds = if amount cd >? 500000
                     then ("suspicious", "Unusually high claim amount")
                     else ("clean", "All checks passed.").
Proof.
  intros (N1 & N2 & N3).
  destruct (verdict_cases cd hs ds)
    as [[H1 _] | [(_ & H2 & _) | [(_ & _ & H3 & _) | [_ ->]]]];
    [contradiction | contradiction | contradiction | reflexivity].
Qed.

(** C1, as amended: the ordered chain, on the fields as [check_fraud]
    reads them, that is trimmed of surrounding whitespace. A trimmed
    hospital that is non-empty and has no exact match gives
    (fraudulent, Hospital not in dataset); otherwise a trimmed disease
    that is non-empty and has no case-insensitive match gives
    (fraudulent, Disease not in dataset); otherwise a matched disease
    with a non-empty trimmed treatment that is not, lowercased, among the
    trimmed lowercased treatments of the matched row gives
    (fraudulent, Treatment mismatch for disease); otherwise an amount
    above 500000 gives (suspicious, Unusually high claim amount), and
    anything else (clean, All checks passed.). *)
Theorem check_fraud_rule_chain (cd : ClaimData) (hs : hospitals_frame)
    (ds : diseases_frame) (w : World) :
  let h := Py.strip (hospital cd) in
  let d := Py.strip (disease cd) in
  let t := Py.strip (treatment cd) in
  let result := outcome (check_fraud cd hs ds) w in
  (hospital_unknown hs h -> result = fraudulent "Hospital not in dataset") /\
  (~ hospital_unknown hs h -> disease_unknown ds d ->
   result = fraudulent "Disease not in dataset") /\
  (~ hospital_unknown hs h -> ~ disease_unknown ds d -> treatment_mismatch ds d t ->
   result = fraudulent "Treatment mismatch for disease") /\
  (other_checks_pass hs ds h d t -> amount cd > 500000 -> result = suspicious) /\
  (other_checks_pass hs ds h d t -> amount cd <= 500000 -> result = clean).
Proof.
  cbv zeta. rewrite check_fraud_outcome.
  unfold fraudulent, suspicious, clean, other_checks_pass.
  destruct (verdict_cases cd hs ds)
    as [[H1 ->] | [(N1 & H2 & ->) | [(N1 & N2 & H3 & ->) | [(N1 & N2 & N3) ->]]]].
  - repeat split; intros; tauto.
  - repeat split; intros; tauto.
  - repeat split; intros; tauto.
  - repeat split; intros; try tauto.
    + destruct (Z.gtb_spec (amount cd) 500000); [reflexivity | lia].
    + destruct (Z.gtb_spec (amount cd) 500000); [lia | reflexivity].
Qed.

Lemma check_fraud_rule_chain_witness :
  outcome (check_fraud (claim "City Clinic" "" "" 0) mock_hospitals mock_diseases) booted
  = fraudulent "Hospital not in dataset"
  /\ outcome (check_fraud (claim "AIIMS" "Flu" "" 0) mock_hospitals mock_diseases) booted
     = fraudulent "Disease not in dataset"
  /\ outcome (check_fraud (claim "AIIMS" "cancer" "Insulin" 0) mock_hospitals
                          mock_diseases) booted
     = fraudulent "Treatment mismatch for disease"
  /\ outcome (check_fraud (claim "AIIMS" "cancer" "radiation" 900000) mock_hospitals
                          mock_diseases) booted
     = suspicious
  /\ outcome (check_fraud (claim "AIIMS" "cancer" "radiation" 900) mock_hospitals
                          mock_diseases) booted
     = clean.
Proof.
  assert (known : ~ hospital_unknown mock_hospitals (Py.strip "AIIMS"))
    by (rewrite hospital_unknown_iff; vm_compute; discriminate).
  assert (cancer : ~ disease_unknown mock_diseases (Py.strip "cancer"))
    by (rewrite disease_unknown_iff; vm_compute; intros [_ H]; discriminate).
  assert (radiation :
            ~ treatment_mismatch mock_diseases (Py.strip "cancer") (Py.strip "radiation")).
  { intros (_ & _ & row & Hrow & Hnin). apply matched_row_iff in Hrow.
    vm_compute in Hrow. injection Hrow as <-. apply Hnin. vm_compute. tauto. }
  split; [|split; [|split; [|split]]].
  - apply (check_fraud_rule_chain (claim "City Clinic" "" "" 0)).
    rewrite hospital_unknown_iff. reflexivity.
  - apply (check_fraud_rule_chain (claim "AIIMS" "Flu" "" 0)); [exact known|].
    rewrite disease_unknown_iff. split; reflexivity.
  - apply (check_fraud_rule_chain (claim "AIIMS" "cancer" "Insulin" 0));
      [exact known | exact cancer |].
    split; [discriminate | split; [discriminate|]].
    exists {| Disease := "Cancer"; Treatment := "Chemotherapy, Radiation" |}.
    split; [apply matched_row_iff; reflexivity|].
    vm_compute. intros [H | [H | []]]; discriminate.
  - apply (check_fraud_rule_chain (claim "AIIMS" "cancer" "radiation" 900000));
      [repeat split; assumption | cbn; lia].
  - apply (check_fraud_rule_chain (claim "AIIMS" "cancer" "radiation" 900));
      [repeat split; assumption | cbn; lia].
Defined.

(** C1 as written fails on a hospital field that is not trimmed: one
    space is non-empty and has no exact match in the table, and the
    claim is classified clean. *)
Lemma check_fraud_blank_hospital_clean :
  hospital_unknown mock_hospitals (hospital blank_hospital_claim)
  /\ outcome (check_fraud blank_hospital_claim mock_hospitals mock_diseases) booted
     = clean
  /\ outcome (check_fraud blank_hospital_claim mock_hospitals mock_diseases) booted
     <> fraudulent "Hospital not in dataset".
Proof.
  split; [|split].
  - split; [discriminate|]. cbn. intuition discriminate.
  - reflexivity.
  - discriminate.
Qed.

(** ** Empty fields *)

(** C2, as amended: a claim with an empty hospital never gets the reason
    Hospital not in dataset; a claim whose hospital, trimmed of
    surrounding whitespace, is in the hospital table and whose disease
    is empty is never fraudulent: it is suspicious or clean, by the
    amount rule alone. *)
Theorem empty_fields_skip_checks (cd : ClaimData) (hs : hospitals_frame)
    (ds : diseases_frame) (w : World) :
  (hospital cd = "" ->
   exists v, outcome (check_fraud cd hs ds) w = Ok v
             /\ snd v <> "Hospital not in dataset") /\
  (In (Py.strip (hospital cd)) hs -> disease cd = "" ->
   exists v, outcome (check_fraud cd hs ds) w = Ok v
             /\ fst v <> "fraudulent"
             /\ (Ok v = suspicious /\ amount cd > 500000
                 \/ Ok v = clean /\ amount cd <= 500000)).
Proof.
  rewrite check_fraud_outcome. split.
  - intros Hh. eexists. split; [reflexivity|].
    destruct (verdict_cases cd hs ds)
      as [[[H1 _] _] | [(_ & _ & ->) | [(_ & _ & _ & ->) | [_ ->]]]].
    + rewrite Hh in H1. now destruct H1.
    + discriminate.
    + discriminate.
    + destruct (amount cd >? 500000); discriminate.
  - intros Hin Hd. eexists. split; [reflexivity|].
    destruct (verdict_cases cd hs ds)
      as [[[_ H1] _] | [(_ & [H2 _] & _) | [(_ & _ & [H3 _] & _) | [_ ->]]]].
    + now destruct H1.
    + rewrite Hd in H2. now destruct H2.
    + rewrite Hd in H3. now destruct H3.
    + unfold suspicious, clean.
      destruct (Z.gtb_spec (amount cd) 500000); (split; [discriminate|]).
      * left. split; [reflexivity | lia].
      * right. split; [reflexivity | lia].
Qed.

Lemma empty_fields_skip_checks_witness :
  (exists v, outcome (check_fraud (claim "" "Flu" "" 10) mock_hospitals mock_diseases)
                     booted = Ok v
             /\ snd v <> "Hospital not in dataset")
  /\ (exists v, outcome (check_fraud (claim " AIIMS " "" "Insulin" 10) mock_hospitals
                                     mock_diseases) booted = Ok v
                /\ fst v <> "fraudulent"
                /\ (Ok v = suspicious /\ 10 > 500000 \/ Ok v = clean /\ 10 <= 500000)).
Proof.
  split.
  - apply (empty_fields_skip_checks (claim "" "Flu" "" 10)). reflexivity.
  - apply (empty_fields_skip_checks (claim " AIIMS " "" "Insulin" 10)).
    + vm_compute. tauto.
    + reflexivity.
Defined.

(** C2 as written fails when the table cell itself is untrimmed: the
    hospital field is in the table, the disease is empty, and the claim
    is fraudulent because the trimmed hospital is looked up. *)
Lemma padded_hospital_fraudulent :
  In (hospital padded_hospital_claim) padded_hospitals
  /\ disease padded_hospital_claim = ""
  /\ outcome (check_fraud padded_hospital_claim padded_hospitals mock_diseases) booted
     = fraudulent "Hospital not in dataset".
Proof. split; [left; reflexivity | split; reflexivity]. Qed.

(** ** The amount threshold *)

(** C3: when the other fields pass rules 1-3, the amount 500001 is
    suspicious with reason Unusually high claim amount, and the same
    fields with the amount 500000 are clean: the threshold is strict. *)
Theorem amount_threshold_strict (cd : ClaimData) (hs : hospitals_frame)
    (ds : diseases_frame) (w : World) :
  other_checks_pass hs ds (Py.strip (hospital cd)) (Py.strip (disease cd))
                    (Py.strip (treatment cd)) ->
  outcome (check_fraud (with_amount cd 500001) hs ds) w = suspicious
  /\ outcome (check_fraud (with_amount cd 500000) hs ds) w = clean.
Proof.
  intros Hpass. rewrite !check_fraud_outcome.
  rewrite (verdict_by_amount (with_amount cd 500001) hs ds Hpass).
  rewrite (verdict_by_amount (with_amount cd 500000) hs ds Hpass).
  split; reflexivity.
Qed.

Lemma amount_threshold_strict_witness :
  outcome (check_fraud (claim "Apollo Hospital" "Diabetes" "Insulin" 500001)
                       mock_hospitals mock_diseases) booted = suspicious
  /\ outcome (check_fraud (claim "Apollo Hospital" "Diabetes" "Insulin" 500000)
                          mock_hospitals mock_diseases) booted = clean.
Proof.
  apply (amount_threshold_strict (claim "Apollo Hospital" "Diabetes" "Insulin" 0)).
  split; [|split].
  - rewrite hospital_unknown_iff. vm_compute. discriminate.
  - rewrite disease_unknown_iff. vm_compute. intros [_ H]. discriminate.
  - intros (_ & _ & row & Hrow & Hnin). apply matched_row_iff in Hrow.
    vm_compute in Hrow. injection Hrow as <-. apply Hnin. vm_compute. tauto.
Defined.

(** ** Purity *)

(** C7: classification is a function of the claim and the two tables
    alone. Whatever the world (what was printed, the files, the module
    globals), [check_fraud] returns, and returns the same pair; it
    changes nothing in the world but standard output. *)
Theorem check_fraud_pure (cd : ClaimData) (hs : hospitals_frame)
    (ds : diseases_frame) :
  exists v : string * string,
    (forall w, outcome (check_fraud cd hs ds) w = Ok v)
    /\ (forall w1 w2,
          outcome (check_fraud cd hs ds) w1 = outcome (check_fraud cd hs ds) w2)
    /\ (forall w,
          let w' := world_after (check_fraud cd hs ds) w in
          files w' = files w /\ g_hospitals_df w' = g_hospitals_df w
          /\ g_diseases_df w' = g_diseases_df w).
Proof.
  exists (verdict cd hs ds). split; [|split].
  - intros w. apply check_fraud_outcome.
  - intros w1 w2. now rewrite !check_fraud_outcome.
  - intros w. cbv zeta. unfold world_after.
    destruct (check_fraud_returns cd hs ds w) as [out ->].
    repeat split.
Qed.

(** ** Fields the verdict does not read *)

(** C10: two claims that agree on hospital, disease, treatment and
    amount get the same verdict against the same tables, whatever their
    patient names and claim ids. *)
Theorem verdict_ignores_patient_and_claim_id (c1 c2 : ClaimData)
    (hs : hospitals_frame) (ds : diseases_frame) (w : World) :
  hospital c1 = hospital c2 -> disease c1 = disease c2 ->
  treatment c1 = treatment c2 -> amount c1 = amount c2 ->
  outcome (check_fraud c1 hs ds) w = outcome (check_fraud c2 hs ds) w.
Proof.
  intros Hh Hd Ht Ha. rewrite !check_fraud_outcome.
  unfold verdict. now rewrite Hh, Hd, Ht, Ha.
Qed.

Lemma verdict_ignores_patient_and_claim_id_witness :
  outcome (check_fraud {| hospital := "AIIMS"; disease := "Cancer";
                          treatment := "Radiation"; amount := 700000;
                          patientName := "Asha Rao"; claimId := "CLM/001" |}
                       mock_hospitals mock_diseases) booted
  = outcome (check_fraud {| hospital := "AIIMS"; disease := "Cancer";
                            treatment := "Radiation"; amount := 700000;
                            patientName := "Vikram Seth"; claimId := "ZX9" |}
                         mock_hospitals mock_diseases) booted.
Proof.
  apply verdict_ignores_patient_and_claim_id; reflexivity.
Defined.

(** ** Trimming and splitting *)

Lemma append_cons (c : ascii) (s t : string) :
  String c s +:+ t = String c (s +:+ t).
Proof. reflexivity. Qed.

Lemma append_empty (t : string) : "" +:+ t = t.
Proof. reflexivity. Qed.

Lemma append_assoc (s t u : string) : (s +:+ t) +:+ u = s +:+ (t +:+ u).
Proof.
  induction s as [|c s IH]; [reflexivity|].
  rewrite !append_cons. now rewrite IH.
Qed.

Lemma lstrip_blank (p s : string) :
  blank p = true -> Py.lstrip (p +:+ s) = Py.lstrip s.
Proof.
  induction p as [|c p IH]; [reflexivity|].
  cbn. rewrite andb_true_iff. intros [Hc Hp].
  rewrite append_cons. cbn. rewrite Hc. now apply IH.
Qed.

Lemma rstrip_blank_only (p : string) : blank p = true -> Py.rstrip p = "".
Proof.
  induction p as [|c p IH]; [reflexivity|].
  cbn. rewrite andb_true_iff. intros [Hc Hp].
  rewrite (IH Hp), Hc. reflexivity.
Qed.

Lemma rstrip_blank (s p : string) :
  blank p = true -> Py.rstrip (s +:+ p) = Py.rstrip s.
Proof.
  intros Hp. induction s as [|c s IH].
  - rewrite append_empty. now apply rstrip_blank_only.
  - rewrite append_cons. cbn. now rewrite IH.
Qed.

Lemma all_chars_app (f : ascii -> bool) (s t : string) :
  all_chars f (s +:+ t) = all_chars f s && all_chars f t.
Proof.
  induction s as [|c s IH]; [reflexivity|].
  rewrite append_cons. cbn. now rewrite IH, andb_assoc.
Qed.

Lemma all_chars_weaken (f g : ascii -> bool) (s : string) :
  (forall c, f c = true -> g c = true) ->
  all_chars f s = true -> all_chars g s = true.
Proof.
  intros Hfg. induction s as [|c s IH]; [reflexivity|].
  cbn. rewrite !andb_true_iff. intros [Hc Hs]. auto.
Qed.

Lemma isspace_not_comma (c : ascii) : Py.isspace c = true -> not_comma c = true.
Proof.
  unfold not_comma. destruct (Ascii.eqb_spec c ","%char) as [-> | _];
    [vm_compute; discriminate | reflexivity].
Qed.

Lemma split_at_comma (a b : string) :
  all_chars not_comma a = true ->
  Py.split ","%char (a +:+ String ","%char b) = a :: Py.split ","%char b.
Proof.
  induction a as [|c a IH].
  - intros _. rewrite append_empty. reflexivity.
  - cbn [all_chars]. rewrite andb_true_iff. intros [Hc Ha].
    rewrite append_cons. cbn [Py.split].
    unfold not_comma in Hc. apply negb_true_iff in Hc. rewrite Hc.
    now rewrite (IH Ha).
Qed.

(** The first entry of a padded list cell, trimmed and lowercased. *)
Lemma insulin_listed (p1 p2 p3 p4 : string) (row : disease_row) :
  blank p1 = true -> blank p2 = true ->
  Treatment row = insulin_metformin p1 p2 p3 p4 ->
  In "insulin" (treatments_of row).
Proof.
  intros H1 H2 Hrow. unfold treatments_of, insulin_metformin in *.
  rewrite Hrow.
  replace (p1 +:+ "Insulin" +:+ p2 +:+ "," +:+ p3 +:+ "Metformin" +:+ p4)
    with ((p1 +:+ "Insulin" +:+ p2) +:+ String ","%char (p3 +:+ "Metformin" +:+ p4)).
  2:{ rewrite !append_assoc. reflexivity. }
  rewrite split_at_comma.
  - cbn [List.map]. left. unfold Py.strip.
    rewrite (lstrip_blank p1 _ H1).
    change (Py.lstrip ("Insulin" +:+ p2)) with ("Insulin" +:+ p2).
    rewrite (rstrip_blank _ p2 H2). reflexivity.
  - rewrite !all_chars_app, !andb_true_iff. repeat split.
    + apply (all_chars_weaken Py.isspace); [apply isspace_not_comma | exact H1].
    + apply (all_chars_weaken Py.isspace); [apply isspace_not_comma | exact H2].
Qed.

(** ** Treatment matching *)

(** C4: with disease Diabetes, a table entry for it that lists Insulin
    and Metformin (whatever whitespace surrounds the two entries) and a
    claim treatment that is insulin in any letter case, with or without
    surrounding whitespace, rule 3 does not fire: [check_fraud] returns,
    and its reason is not Treatment mismatch for disease. *)
Theorem insulin_matches_any_case (cd : ClaimData) (hs : hospitals_frame)
    (ds : diseases_frame) (w : World) (row : disease_row) (p1 p2 p3 p4 : string) :
  disease cd = "Diabetes" ->
  Py.lower (Py.strip (treatment cd)) = "insulin" ->
  matched_row ds "Diabetes" row ->
  blank p1 = true -> blank p2 = true -> blank p3 = true -> blank p4 = true ->
  Treatment row = insulin_metformin p1 p2 p3 p4 ->
  ~ treatment_mismatch ds (Py.strip (disease cd)) (Py.strip (treatment cd))
  /\ exists v, outcome (check_fraud cd hs ds) w = Ok v
               /\ snd v <> "Treatment mismatch for disease".
Proof.
  intros Hd Ht Hrow H1 H2 H3 H4 Hcell.
  assert (Hno : ~ treatment_mismatch ds (Py.strip (disease cd))
                                     (Py.strip (treatment cd))).
  { rewrite Hd. change (Py.strip "Diabetes") with "Diabetes".
    intros (_ & _ & row' & Hrow' & Hnin).
    rewrite (matched_row_unique ds _ row' row Hrow' Hrow) in Hnin.
    apply Hnin. rewrite Ht. exact (insulin_listed p1 p2 p3 p4 row H1 H2 Hcell). }
  split; [exact Hno|].
  rewrite check_fraud_outcome. eexists. split; [reflexivity|].
  destruct (verdict_cases cd hs ds)
    as [[_ ->] | [(_ & _ & ->) | [(_ & _ & H & _) | [_ ->]]]].
  - discriminate.
  - discriminate.
  - contradiction.
  - destruct (amount cd >? 500000); discriminate.
Qed.

Lemma insulin_matches_any_case_witness :
  ~ treatment_mismatch mock_diseases (Py.strip "Diabetes") (Py.strip " InSuLiN ")
  /\ exists v, outcome (check_fraud (claim "AIIMS" "Diabetes" " InSuLiN " 1200)
                                    mock_hospitals mock_diseases) booted = Ok v
               /\ snd v <> "Treatment mismatch for disease".
Proof.
  apply (insulin_matches_any_case (claim "AIIMS" "Diabetes" " InSuLiN " 1200)
           mock_hospitals mock_diseases booted
           {| Disease := "Diabetes"; Treatment := "Insulin, Metformin" |}
           "" "" " " "");
    try reflexivity.
  apply matched_row_iff. reflexivity.
Defined.

(** ** Round trip through the parser and the classifier *)

(** C5: the six patterns read hospital Apollo Hospital, disease
    Diabetes, treatment Insulin and amount 1000 (no patient name, no
    claim id) from the four-line text; the loaders fall back to the mock
    tables when the workbooks are absent; against those tables the
    fields are classified (clean, All checks passed.); and the handler
    as a whole answers 200 with those fields and that verdict. *)
Theorem parse_then_classify_sample :
  (forall w, parse_fields sample_text w
             = (Ok (claim "Apollo Hospital" "Diabetes" "Insulin" 1000), w))
  /\ (forall path w, outcome (load_hospitals path None) w = Ok mock_hospitals)
  /\ (forall path w, outcome (load_diseases path None) w = Ok mock_diseases)
  /\ (forall w, outcome (check_fraud (claim "Apollo Hospital" "Diabetes" "Insulin" 1000)
                                     mock_hospitals mock_diseases) w = clean)
  /\ outcome (upload_claim (ocr_reads sample_text) {| filename := "claim.png" |}) booted
     = Ok {| status_code := 200; status := "success";
             extractedData :=
               {| fields := claim "Apollo Hospital" "Diabetes" "Insulin" 1000;
                  fraudStatus := "clean";
                  fraudReason := "All checks passed." |} |}.
Proof.
  split; [|split; [|split; [|split]]].
  - intros w. vm_compute. reflexivity.
  - reflexivity.
  - reflexivity.
  - intros w. rewrite check_fraud_outcome. reflexivity.
  - vm_compute. reflexivity.
Qed.

(** ** Matches always carry their group *)

Lemma star_some {R : Type} (p : ascii -> bool) (s : string)
    (k : string -> option R) (res : R) :
  star p s k = Some res -> exists s', k s' = Some res.
Proof.
  induction s as [|x s IH]; cbn.
  - intros H. eexists; eassumption.
  - destruct (p x); [|intros H; eexists; eassumption].
    destruct (star p s k) as [r|] eqn:Hs.
    + intros [= ->]. now apply IH.
    + intros H. eexists; eassumption.
Qed.

Lemma bt_group {R : Type} (r : regex) :
  forall (s : string) (g : option string)
         (k : string -> option string -> option R) (res : R),
    bt r s g k = Some res ->
    exists s' g', k s' g' = Some res
                  /\ (g <> None \/ sets_group r = true -> g' <> None).
Proof.
  induction r as [|c|p|r1 IH1 r2 IH2|r1 IH1 r2 IH2|r1 IH1|p|p|r1 IH1];
    intros s g k res; cbn [bt sets_group].
  - intros H. exists s, g. split; [assumption | intros [H'|H']; [assumption|discriminate]].
  - destruct s as [|x s]; [discriminate|].
    destruct (Ascii.eqb _ _); [|discriminate].
    intros H. exists s, g. split; [assumption | intros [H'|H']; [assumption|discriminate]].
  - destruct s as [|x s]; [discriminate|].
    destruct (p x); [|discriminate].
    intros H. exists s, g. split; [assumption | intros [H'|H']; [assumption|discriminate]].
  - intros H. apply IH1 in H as (s1 & g1 & H & Hg1).
    apply IH2 in H as (s2 & g2 & H & Hg2).
    exists s2, g2. split; [assumption|].
    rewrite orb_true_iff. intros [Hg | [Hs | Hs]]; auto.
  - destruct (bt r1 s g k) as [res1|] eqn:H1.
    + intros [= ->]. apply IH1 in H1 as (s1 & g1 & H & Hg1).
      exists s1, g1. split; [assumption|].
      rewrite andb_true_iff. intros [Hg | [Hs _]]; auto.
    + intros H. apply IH2 in H as (s2 & g2 & H & Hg2).
      exists s2, g2. split; [assumption|].
      rewrite andb_true_iff. intros [Hg | [_ Hs]]; auto.
  - destruct (bt r1 s g k) as [res1|] eqn:H1.
    + intros [= ->]. apply IH1 in H1 as (s1 & g1 & H & Hg1).
      exists s1, g1. split; [assumption|].
      intros [Hg | Hs]; [auto | discriminate].
    + intros H. exists s, g. split; [assumption|].
      intros [Hg | Hs]; [auto | discriminate].
  - intros H. apply star_some in H as (s' & H). exists s', g.
    split; [assumption | intros [H'|H']; [assumption|discriminate]].
  - destruct s as [|x s]; [discriminate|].
    destruct (p x); [|discriminate].
    intros H. apply star_some in H as (s' & H). exists s', g.
    split; [assumption | intros [H'|H']; [assumption|discriminate]].
  - intros H. apply IH1 in H as (s1 & g1 & H & _).
    eexists s1, _. split; [exact H | intros _; discriminate].
Qed.

Lemma search_group (r : regex) (text : string) (m : Match) :
  sets_group r = true -> search r text = Some m ->
  exists g, group1 m = Some g.
Proof.
  intros Hr. induction text as [|x text IH]; cbn [search].
  all: destruct (bt r _ None _) as [m'|] eqn:Hbt.
  all: try (intros [= ->]; apply bt_group in Hbt as (s' & g' & [= <-] & Hg);
            destruct g' as [g'|]; [now exists g' | exfalso; apply Hg; auto]).
  - discriminate.
  - exact IH.
Qed.

(** A field read through [m.group(1)] is a value, and the world stays. *)
Lemma field_total (r : regex) (text : string) (f : string -> string) :
  sets_group r = true ->
  exists v : string,
    (search r text = None -> v = "") /\
    forall w,
      match search r text with
      | Some m => g ← group m; mret (f g)
      | None => mret ""
      end w = (Ok v, w).
Proof.
  intros Hr. destruct (search r text) as [m|] eqn:Hs.
  - destruct (search_group r text m Hr Hs) as [g Hg].
    exists (f g). split; [discriminate|]. intros w.
    unfold group. rewrite Hg. reflexivity.
  - exists "". split; reflexivity.
Qed.

(** ** Best-effort parsing *)

Lemma int_float_world (s : string) (w : World) :
  Float.int_float s w = (outcome (Float.int_float s) w, w).
Proof.
  unfold outcome, Float.int_float.
  destruct (Float.read_decimal s false 0 1 0) as [[num den]|]; [|reflexivity].
  destruct (Float.int_of_nearest_double num den); reflexivity.
Qed.

Lemma parse_fields_no_match (text : string) (w : World) :
  no_pattern_matches text -> parse_fields text w = (Ok empty_claim, w).
Proof.
  intros (Hh & Hd & Ht & Ha & Hp & Hc).
  unfold parse_fields. rewrite Hh, Hd, Ht, Ha, Hp, Hc. reflexivity.
Qed.

Lemma parse_fields_value_error (text : string) (w : World) (m : Match)
    (g msg : string) :
  search amount_re text = Some m -> group1 m = Some g ->
  outcome (Float.int_float (Py.strip (Py.remove ","%char g))) w
  = Raise (ValueError msg) ->
  exists cd, parse_fields text w = (Ok cd, w) /\ amount cd = 0.
Proof.
  intros Hm Hg Herr.
  destruct (field_total hospital_re text (fun g => first_line (Py.strip g)) eq_refl)
    as (vh & _ & Hh).
  destruct (field_total disease_re text (fun g => first_line (Py.strip g)) eq_refl)
    as (vd & _ & Hd).
  destruct (field_total treatment_re text (fun g => first_line (Py.strip g)) eq_refl)
    as (vt & _ & Ht).
  destruct (field_total patient_name_re text (fun g => first_line (Py.strip g)) eq_refl)
    as (vp & _ & Hp).
  destruct (field_total claim_id_re text Py.strip eq_refl) as (vc & _ & Hc).
  exists {| hospital := vh; disease := vd; treatment := vt; amount := 0;
            patientName := vp; claimId := vc |}.
  split; [|reflexivity].
  unfold parse_fields. rewrite Hm.
  unfold mbind, M_bind, bind in *.
  rewrite Hh, Hd, Ht.
  unfold group at 1. rewrite Hg. unfold mret at 1, M_ret at 1, ret at 1.
  unfold try_except. rewrite int_float_world, Herr.
  unfold mret at 1, M_ret at 1, ret at 1.
  rewrite Hp, Hc. reflexivity.
Qed.

(** C6: a text in which none of the six patterns is found parses to the
    empty strings and the amount 0; an amount capture that [float]
    rejects also gives the amount 0; and the all-empty claim is
    classified (clean, All checks passed.) whatever the tables. *)
Theorem unrecognised_text_is_clean (text : string) (w : World) :
  (no_pattern_matches text -> outcome (parse_fields text) w = Ok empty_claim)
  /\ (forall m g msg,
        search amount_re text = Some m -> group1 m = Some g ->
        outcome (Float.int_float (Py.strip (Py.remove ","%char g))) w
        = Raise (ValueError msg) ->
        exists cd, outcome (parse_fields text) w = Ok cd /\ amount cd = 0)
  /\ (forall hs ds, outcome (check_fraud empty_claim hs ds) w = clean).
Proof.
  split; [|split].
  - intros H. unfold outcome. now rewrite parse_fields_no_match.
  - intros m g msg Hm Hg Herr.
    destruct (parse_fields_value_error text w m g msg Hm Hg Herr) as (cd & Hcd & Ha).
    exists cd. unfold outcome. now rewrite Hcd.
  - intros hs ds. rewrite check_fraud_outcome. reflexivity.
Qed.

Lemma unrecognised_text_is_clean_witness :
  outcome (parse_fields "Dear Sir, please find the bill attached.") booted
  = Ok empty_claim
  /\ (exists cd, outcome (parse_fields "Amount: ..") booted = Ok cd /\ amount cd = 0)
  /\ outcome (check_fraud empty_claim mock_hospitals mock_diseases) booted = clean.
Proof.
  split; [|split].
  - apply (unrecognised_text_is_clean "Dear Sir, please find the bill attached.").
    repeat split; vm_compute; reflexivity.
  - apply (unrecognised_text_is_clean "Amount: .." booted)
      with (m := {| group1 := Some ".." |}) (g := "..")
           (msg := "could not convert string to float: '..'");
      vm_compute; reflexivity.
  - apply (unrecognised_text_is_clean "" booted).
Defined.

(** ** The handler: errors and cleanup *)

Lemma returns_try_except {A} (m : M A) (h : exn -> option (M A)) (v : A) :
  returns m v -> returns (try_except m h) v.
Proof.
  intros Hm w. destruct (Hm w) as [out Hout]. exists out.
  unfold try_except. now rewrite Hout.
Qed.

Lemma extract_text_from_pdf_returns (env : Env) (path : string) :
  exists text, returns (extract_text_from_pdf env path) text.
Proof.
  unfold extract_text_from_pdf. destruct (pdf_pages env) as [pages|e].
  - eexists. apply returns_try_except. apply returns_mret.
  - exists "". intros w. exists [Line ("Error extracting text from PDF: " +:+ str_exn e)].
    destruct w; reflexivity.
Qed.

Lemma extract_text_from_image_returns (env : Env) (path : string) :
  exists text, returns (extract_text_from_image env path) text.
Proof.
  unfold extract_text_from_image. destruct (image_to_string env) as [text|e].
  - eexists. apply returns_try_except. apply returns_mret.
  - exists "". intros w. exists [Line ("Error extracting text from image: " +:+ str_exn e)].
    destruct w; reflexivity.
Qed.

(** Extraction never raises past its boundary. *)
Lemma extract_text_returns (env : Env) (file : UploadFile) (path : string) :
  exists text, returns (extract_text env file path) text.
Proof.
  unfold extract_text. destruct (Py.endswith _ _).
  - apply extract_text_from_pdf_returns.
  - apply extract_text_from_image_returns.
Qed.

(** The cleanup never raises; it leaves no temporary file unless
    [os.remove] fails. *)
Lemma upload_claim_finally_run (env : Env) (path : string) (w : World) :
  exists w', upload_claim_finally env path w = (Ok tt, w')
             /\ (os_remove env = None -> path ∉ files w').
Proof.
  unfold upload_claim_finally, mbind, M_bind, bind, get_world.
  destruct (decide (path ∈ files w)) as [Hin | Hout].
  - unfold try_except, may_raise. destruct (os_remove env) as [e|].
    + eexists. split; [reflexivity | discriminate].
    + eexists. split; [reflexivity|]. intros _. cbn [files].
      rewrite elem_of_difference, elem_of_singleton. tauto.
  - eexists. split; [reflexivity|]. intros _. exact Hout.
Qed.

(** What the caller sees, from what the [try] block did. *)
Lemma upload_claim_outcome (env : Env) (file : UploadFile) (w : World) :
  outcome (upload_claim env file) w
  = match outcome (upload_claim_try env file (temp_path file)) w with
    | Ok response => Ok response
    | Raise (HTTPException status_code detail) =>
        Raise (HTTPException status_code detail)
    | Raise e => Raise (internal_error e)
    end.
Proof.
  unfold outcome, upload_claim, try_finally, try_except. fold (temp_path file).
  destruct (upload_claim_try env file (temp_path file) w) as [[response | e] w1];
    cbn [fst].
  - destruct (upload_claim_finally_run env (temp_path file) w1) as (w2 & -> & _).
    reflexivity.
  - destruct e as [status_code detail | msg | msg]; cbn [upload_claim_except].
    + unfold raise.
      destruct (upload_claim_finally_run env (temp_path file) w1) as (w2 & -> & _).
      reflexivity.
    + unfold mbind, M_bind, bind, print, emit, raise.
      match goal with
      | |- context [upload_claim_finally env (temp_path file) ?w'] =>
          destruct (upload_claim_finally_run env (temp_path file) w') as (w2 & -> & _)
      end.
      reflexivity.
    + unfold mbind, M_bind, bind, print, emit, raise.
      match goal with
      | |- context [upload_claim_finally env (temp_path file) ?w'] =>
          destruct (upload_claim_finally_run env (temp_path file) w') as (w2 & -> & _)
      end.
      reflexivity.
Qed.

Lemma upload_claim_try_no_text (env : Env) (file : UploadFile) (w : World) :
  os_open_wb env = None -> shutil_copyfileobj env = None ->
  outcome (extract_text env file (temp_path file)) w = Ok "" ->
  outcome (upload_claim_try env file (temp_path file)) w = Raise extraction_failed.
Proof.
  intros Hopen Hcopy Htext.
  destruct (extract_text_returns env file (temp_path file)) as [text Hret].
  assert (text = "") as ->.
  { unfold outcome in Htext. destruct (Hret w) as [out Hout].
    rewrite Hout in Htext. now injection Htext. }
  unfold outcome, upload_claim_try. rewrite Hopen, Hcopy.
  unfold mbind, M_bind, bind, may_raise, get_world, set_files, mret, M_ret, ret.
  match goal with
  | |- context [extract_text env file (temp_path file) ?w'] =>
      destruct (Hret w') as [out ->]
  end.
  reflexivity.
Qed.

(** C8: when extraction yields the empty string the handler fails with
    the client error 400, Failed to extract text from the document, and
    never with a 500; when the [try] block fails with anything that is
    not an HTTPException the handler fails with the internal error 500
    that carries the message; the two errors differ. *)
Theorem upload_claim_error_surface (env : Env) (file : UploadFile) (w : World) :
  (os_open_wb env = None -> shutil_copyfileobj env = None ->
   outcome (extract_text env file (temp_path file)) w = Ok "" ->
   outcome (upload_claim env file) w
   = Raise (HTTPException 400 "Failed to extract text from the document.")
   /\ forall detail,
        outcome (upload_claim env file) w <> Raise (HTTPException 500 detail))
  /\ (forall e,
        outcome (upload_claim_try env file (temp_path file)) w = Raise e ->
        (forall status_code detail, e <> HTTPException status_code detail) ->
        outcome (upload_claim env file) w
        = Raise (HTTPException 500 ("An unexpected error occurred: " +:+ str_exn e)))
  /\ (forall e, extraction_failed <> internal_error e).
Proof.
  split; [|split].
  - intros Hopen Hcopy Htext.
    rewrite upload_claim_outcome, (upload_claim_try_no_text env file w Hopen Hcopy Htext).
    split; [reflexivity | discriminate].
  - intros e Htry Hne. rewrite upload_claim_outcome, Htry.
    destruct e as [status_code detail | msg | msg]; try reflexivity.
    destruct (Hne status_code detail). reflexivity.
  - discriminate.
Qed.

Lemma upload_claim_error_surface_witness :
  (outcome (upload_claim (ocr_reads "") scan) booted
   = Raise (HTTPException 400 "Failed to extract text from the document.")
   /\ forall detail,
        outcome (upload_claim (ocr_reads "") scan) booted
        <> Raise (HTTPException 500 detail))
  /\ outcome (upload_claim disk_full scan) booted
     = Raise (HTTPException 500
                ("An unexpected error occurred: " +:+ "No space left on device")).
Proof.
  split.
  - apply (upload_claim_error_surface (ocr_reads "") scan booted); reflexivity.
  - apply (proj1 (proj2 (upload_claim_error_surface disk_full scan booted))
             (Exception "No space left on device")).
    + reflexivity.
    + discriminate.
Defined.

(** C9, as amended: on every exit of the handler, with a response, with
    the client error or with an internal error, no temporary file is
    left, provided [os.remove] itself does not fail. *)
Theorem temp_file_removed (env : Env) (file : UploadFile) (w : World) :
  os_remove env = None ->
  temp_path file ∉ files (world_after (upload_claim env file) w).
Proof.
  intros Hrm. unfold world_after, upload_claim, try_finally. fold (temp_path file).
  destruct (try_except _ _ w) as [r w1].
  destruct (upload_claim_finally_run env (temp_path file) w1) as (w2 & -> & Hgone).
  destruct r; now apply Hgone.
Qed.

Lemma temp_file_removed_witness :
  (temp_path scan ∉ files (world_after (upload_claim (ocr_reads sample_text) scan) booted))
  /\ (temp_path scan ∉ files (world_after (upload_claim (ocr_reads "") scan) booted))
  /\ (temp_path scan ∉ files (world_after (upload_claim disk_full scan) booted)).
Proof.
  split; [|split]; apply temp_file_removed; reflexivity.
Defined.

(** C9 as written fails when [os.remove] raises: the handler answers
    200, prints that the removal failed, and the temporary file stays. *)
Lemma temp_file_left_behind :
  (exists response,
     outcome (upload_claim remove_denied scan) booted = Ok response)
  /\ (temp_path scan ∈ files (world_after (upload_claim remove_denied scan) booted)).
Proof.
  split.
  - eexists. vm_compute. reflexivity.
  - refine (bool_decide_unpack _ _). vm_compute. exact I.
Qed.

(** * Further properties of the rule chain *)


(** X2: a fraudulent verdict does not depend on the amount: the same
    claim with any other amount gets the same verdict. *)
Theorem fraudulent_whatever_amount (cd : ClaimData) (hs : hospitals_frame)
    (ds : diseases_frame) (w : World) (reason : string) (a : Z) :
  outcome (check_fraud cd hs ds) w = fraudulent reason ->
  outcome (check_fraud (with_amount cd a) hs ds) w = fraudulent reason.
Proof.
  rewrite !check_fraud_outcome. unfold fraudulent, verdict. cbn [hospital disease treatment amount with_amount].
  destruct (Py.truthy (Py.strip (hospital cd)) && _); [trivial|].
  destruct (Py.truthy (Py.strip (disease cd))).
  - destruct (List.filter _ ds); [trivial|].
    destruct (Py.truthy (Py.strip (treatment cd)) && _); [trivial|].
    destruct (amount cd >? 500000); discriminate.
  - destruct (amount cd >? 500000); discriminate.
Qed.

Lemma fraudulent_whatever_amount_witness :
  outcome (check_fraud (with_amount (claim "AIIMS" "Flu" "" 10) 900000)
                       mock_hospitals mock_diseases) booted
  = fraudulent "Disease not in dataset".
Proof.
  apply (fraudulent_whatever_amount (claim "AIIMS" "Flu" "" 10)). reflexivity.
Defined.

Lemma truthy_lower (s : string) : Py.truthy (Py.lower s) = Py.truthy s.
Proof. destruct s; reflexivity. Qed.

(** X3: the verdict reads the hospital up to surrounding whitespace, and
    the disease and the treatment up to surrounding whitespace and letter
    case: claims equal in that sense and in amount get the same verdict. *)
Theorem verdict_up_to_case_and_padding (c1 c2 : ClaimData) (hs : hospitals_frame)
    (ds : diseases_frame) (w : World) :
  Py.strip (hospital c1) = Py.strip (hospital c2) ->
  Py.lower (Py.strip (disease c1)) = Py.lower (Py.strip (disease c2)) ->
  Py.lower (Py.strip (treatment c1)) = Py.lower (Py.strip (treatment c2)) ->
  amount c1 = amount c2 ->
  outcome (check_fraud c1 hs ds) w = outcome (check_fraud c2 hs ds) w.
Proof.
  intros Hh Hd Ht Ha. rewrite !check_fraud_outcome. unfold verdict.
  rewrite Hh, Ha, Hd, Ht.
  rewrite <- (truthy_lower (Py.strip (disease c1))), Hd, truthy_lower.
  rewrite <- (truthy_lower (Py.strip (treatment c1))), Ht, truthy_lower.
  reflexivity.
Qed.

Lemma verdict_up_to_case_and_padding_witness :
  outcome (check_fraud (claim " AIIMS" "CANCER " "  radiation" 5) mock_hospitals
                       mock_diseases) booted
  = outcome (check_fraud (claim "AIIMS" "cancer" "Radiation" 5) mock_hospitals
                         mock_diseases) booted
  /\ outcome (check_fraud (claim "aiims" "cancer" "Radiation" 5) mock_hospitals
                          mock_diseases) booted
     = fraudulent "Hospital not in dataset".
Proof.
  split.
  - apply verdict_up_to_case_and_padding; reflexivity.
  - reflexivity.
Defined.

(** X4: the treatment is looked at only under a non-empty disease: when
    the disease is empty or blank, any treatment gives the same verdict. *)
Theorem treatment_unchecked_without_disease (cd : ClaimData) (hs : hospitals_frame)
    (ds : diseases_frame) (w : World) (t : string) :
  Py.strip (disease cd) = "" ->
  outcome (check_fraud (with_treatment cd t) hs ds) w
  = outcome (check_fraud cd hs ds) w.
Proof.
  intros Hd. rewrite !check_fraud_outcome. unfold verdict.
  cbn [hospital disease treatment amount with_treatment]. rewrite Hd.
  reflexivity.
Qed.

Lemma treatment_unchecked_without_disease_witness :
  outcome (check_fraud (with_treatment (claim "AIIMS" " " "" 5) "Leeches")
                       mock_hospitals mock_diseases) booted
  = clean.
Proof.
  rewrite (treatment_unchecked_without_disease (claim "AIIMS" " " "" 5));
    reflexivity.
Defined.

(** X5: of the rows whose disease matches, only the first one counts:
    the verdict against the whole table is the verdict against that row
    alone. *)
Theorem only_first_matching_row (cd : ClaimData) (hs : hospitals_frame)
    (ds : diseases_frame) (w : World) (row : disease_row) :
  matched_row ds (Py.strip (disease cd)) row ->
  outcome (check_fraud cd hs ds) w = outcome (check_fraud cd hs [row]) w.
Proof.
  intros Hrow. rewrite !check_fraud_outcome. unfold verdict.
  destruct (matched_filter_head ds _ row Hrow) as [rest ->].
  destruct Hrow as (_ & _ & _ & Heq & _).
  cbn [List.filter]. apply String.eqb_eq in Heq. rewrite Heq. reflexivity.
Qed.

Lemma only_first_matching_row_witness :
  outcome (check_fraud (claim "AIIMS" "Cancer" "Surgery" 5) mock_hospitals
             (mock_diseases ++ [ {| Disease := "cancer"; Treatment := "Surgery" |} ])%list)
          booted
  = fraudulent "Treatment mismatch for disease".
Proof.
  rewrite (only_first_matching_row (claim "AIIMS" "Cancer" "Surgery" 5) _ _ _
             {| Disease := "Cancer"; Treatment := "Chemotherapy, Radiation" |}).
  - reflexivity.
  - apply matched_row_iff. reflexivity.
Defined.

(** * Loading and start-up *)


(** X7: start-up never raises and installs the two frames the loaders
    end with; the empty frames of the outer handler are never installed
    on a load error; afterwards the health route reports the sizes of
    those frames. *)
Theorem startup_installs_frames (hpath dpath : string)
    (hsrc : dataset hospitals_frame) (dsrc : dataset diseases_frame) (w : World) :
  let w' := world_after (startup hpath hsrc dpath dsrc) w in
  outcome (startup hpath hsrc dpath dsrc) w = Ok tt
  /\ g_hospitals_df w' = loaded mock_hospitals hsrc
  /\ g_diseases_df w' = loaded mock_diseases dsrc
  /\ files w' = files w
  /\ outcome health_check w'
     = Ok {| health_status := "healthy";
             hospitals_count := List.length (loaded mock_hospitals hsrc);
             diseases_count := List.length (loaded mock_diseases dsrc) |}.
Proof.
  destruct hsrc as [[hf | he] |], dsrc as [[df | de] |]; repeat split.
Qed.

(** * Text extraction *)

Lemma lstrip_head (s : string) : head_not_space (Py.lstrip s).
Proof.
  induction s as [|c s IH]; cbn; [exact I|].
  destruct (Py.isspace c) eqn:Hc; [exact IH | exact Hc].
Qed.

Lemma lstrip_fixed (s : string) : head_not_space s -> Py.lstrip s = s.
Proof. destruct s as [|c s]; cbn; [reflexivity|]. now intros ->. Qed.

Lemma rstrip_head (s : string) : head_not_space s -> head_not_space (Py.rstrip s).
Proof.
  destruct s as [|c s]; cbn; [exact id|]. intros Hc.
  destruct (Py.rstrip s); [rewrite Hc|]; exact Hc.
Qed.

Lemma rstrip_idempotent (s : string) : Py.rstrip (Py.rstrip s) = Py.rstrip s.
Proof.
  induction s as [|c s IH]; cbn; [reflexivity|].
  destruct (Py.rstrip s) as [|x r] eqn:Hr.
  - destruct (Py.isspace c) eqn:Hc; cbn; [reflexivity | now rewrite Hc].
  - cbn [Py.rstrip] in *. now rewrite IH.
Qed.

Lemma strip_idempotent (s : string) : Py.strip (Py.strip s) = Py.strip s.
Proof.
  unfold Py.strip.
  rewrite (lstrip_fixed (Py.rstrip (Py.lstrip s))).
  - apply rstrip_idempotent.
  - apply rstrip_head, lstrip_head.
Qed.

Lemma strip_blank (s : string) : blank s = true -> Py.strip s = "".
Proof.
  unfold Py.strip. induction s as [|c s IH]; cbn; [reflexivity|].
  rewrite andb_true_iff. intros [-> Hs]. now apply IH.
Qed.

(** X8: extraction never raises past its boundary, writes nothing but
    standard output, and the text it returns carries no surrounding
    whitespace. *)
Theorem extract_text_trimmed (env : Env) (file : UploadFile) (path : string) :
  exists text,
    returns (extract_text env file path) text /\ Py.strip text = text.
Proof.
  unfold extract_text. destruct (Py.endswith _ _).
  - unfold extract_text_from_pdf. destruct (pdf_pages env) as [pages | e].
    + eexists. split; [apply returns_try_except, returns_mret|].
      apply strip_idempotent.
    + exists "". split; [|reflexivity].
      intros w. exists [Line ("Error extracting text from PDF: " +:+ str_exn e)].
      destruct w; reflexivity.
  - unfold extract_text_from_image. destruct (image_to_string env) as [text | e].
    + eexists. split; [apply returns_try_except, returns_mret|].
      apply strip_idempotent.
    + exists "". split; [|reflexivity].
      intros w. exists [Line ("Error extracting text from image: " +:+ str_exn e)].
      destruct w; reflexivity.
Qed.

Lemma pages_blank (pages : list (option string)) (acc : string) :
  forallb page_blank pages = true -> blank acc = true ->
  blank (fold_left (fun text page =>
                      match page with
                      | Some page_text =>
                          if Py.truthy page_text then text +:+ page_text +:+ nl else text
                      | None => text
                      end) pages acc) = true.
Proof.
  revert acc. induction pages as [|page pages IH]; cbn [fold_left forallb]; [trivial|].
  intros acc. rewrite andb_true_iff. intros [Hp Hps] Hacc.
  apply IH; [exact Hps|].
  destruct page as [page_text|]; [|exact Hacc].
  destruct (Py.truthy page_text); [|exact Hacc].
  unfold blank in *. cbn [page_blank] in Hp. unfold blank in Hp.
  rewrite !all_chars_app, Hacc, Hp. reflexivity.
Qed.

Lemma nothing_read_no_text (env : Env) (file : UploadFile) (w : World) :
  nothing_read env file ->
  outcome (extract_text env file (temp_path file)) w = Ok "".
Proof.
  unfold nothing_read, extract_text, is_pdf, outcome.
  destruct (Py.endswith _ _).
  - unfold extract_text_from_pdf, try_except.
    intros [[e ->] | (pages & -> & Hblank)]; [reflexivity|].
    unfold lift, mbind, M_bind, bind, mret, M_ret, ret. cbv beta iota.
    rewrite strip_blank; [reflexivity | now apply pages_blank].
  - unfold extract_text_from_image, try_except.
    intros [[e ->] | (text & -> & Hblank)]; [reflexivity|].
    unfold lift, mbind, M_bind, bind, mret, M_ret, ret. cbv beta iota.
    now rewrite strip_blank.
Qed.

(** X9: a document that is saved but from which nothing is read, because
    the engine for its type raises or returns only whitespace (for a PDF:
    every page without text), is answered with the client error 400 and
    not with a 500. *)
Theorem unreadable_document_is_client_error (env : Env) (file : UploadFile)
    (w : World) :
  os_open_wb env = None -> shutil_copyfileobj env = None ->
  nothing_read env file ->
  outcome (upload_claim env file) w = Raise extraction_failed.
Proof.
  intros Hopen Hcopy Hnothing.
  rewrite upload_claim_outcome.
  rewrite (upload_claim_try_no_text env file w Hopen Hcopy
             (nothing_read_no_text env file w Hnothing)).
  reflexivity.
Qed.

Lemma unreadable_document_is_client_error_witness :
  outcome (upload_claim (pdf_with (Raise (Exception "No /Root object"))) report) booted
  = Raise extraction_failed
  /\ outcome (upload_claim (pdf_with (Ok [None; Some "  "; Some ""])) report) booted
     = Raise extraction_failed.
Proof.
  split; apply unreadable_document_is_client_error; try reflexivity.
  - left. now eexists.
  - right. eexists. split; reflexivity.
Defined.

(** X10: the engine is chosen by the extension alone: for a file name
    that ends in .pdf in any letter case the OCR answer is never
    consulted, for any other name the PDF answer is never consulted. *)
Theorem engine_chosen_by_extension (env1 env2 : Env) (file : UploadFile) (w : World) :
  os_open_wb env1 = os_open_wb env2 ->
  shutil_copyfileobj env1 = shutil_copyfileobj env2 ->
  os_remove env1 = os_remove env2 ->
  (if is_pdf file then pdf_pages env1 = pdf_pages env2
   else image_to_string env1 = image_to_string env2) ->
  upload_claim env1 file w = upload_claim env2 file w.
Proof.
  intros Hopen Hcopy Hrm Hengine.
  unfold upload_claim, upload_claim_try, upload_claim_finally, extract_text.
  unfold is_pdf in Hengine. rewrite Hopen, Hcopy, Hrm.
  destruct (Py.endswith _ _).
  - unfold extract_text_from_pdf. now rewrite Hengine.
  - unfold extract_text_from_image. now rewrite Hengine.
Qed.

Lemma engine_chosen_by_extension_witness :
  upload_claim (pdf_with (Ok [Some sample_text])) report booted
  = upload_claim {| os_open_wb := None; shutil_copyfileobj := None;
                    pdf_pages := Ok [Some sample_text];
                    image_to_string := Raise (Exception "tesseract is not installed");
                    os_remove := None |} report booted.
Proof.
  apply engine_chosen_by_extension; reflexivity.
Defined.

(** * The parser *)

Lemma string_length_app (a b : string) :
  String.length (a +:+ b) = (String.length a + String.length b)%nat.
Proof.
  induction a as [|c a IH]; [reflexivity|].
  rewrite append_cons. cbn. now rewrite IH.
Qed.

Lemma substring_prefix (a b : string) :
  substring 0 (String.length a) (a +:+ b) = a.
Proof.
  induction a as [|c a IH].
  - destruct b; reflexivity.
  - rewrite append_cons. cbn. now rewrite IH.
Qed.

Lemma consumed_app (a b : string) : consumed (a +:+ b) b = a.
Proof.
  unfold consumed. rewrite string_length_app.
  replace (String.length a + String.length b - String.length b)%nat
    with (String.length a) by lia.
  apply substring_prefix.
Qed.

Lemma star_split {R : Type} (p : ascii -> bool) (s : string)
    (k : string -> option R) (res : R) :
  star p s k = Some res ->
  exists pre s', s = pre +:+ s' /\ all_chars p pre = true /\ k s' = Some res.
Proof.
  induction s as [|x s IH]; cbn [star].
  - intros H. exists "", "". auto.
  - destruct (p x) eqn:Hx; [|intros H; exists "", (String x s); auto].
    destruct (star p s k) as [r|] eqn:Hs.
    + intros [= ->]. destruct (IH eq_refl) as (pre & s' & -> & Hpre & Hk).
      exists (String x pre), s'. cbn. rewrite Hx, Hpre. auto.
    + intros H. exists "", (String x s). auto.
Qed.

Lemma bt_captures {R : Type} (p : ascii -> bool) (r : regex) :
  captures p r ->
  forall (s : string) (g : option string)
         (k : string -> option string -> option R) (res : R),
    bt r s g k = Some res ->
    exists s' c, k s' (Some c) = Some res /\ all_chars p c = true /\ c <> "".
Proof.
  induction 1 as [|a r Hr IH]; intros s g k res.
  - cbn [bt]. destruct s as [|x s]; [discriminate|].
    destruct (p x) eqn:Hx; [|discriminate].
    intros H. apply star_split in H as (pre & s' & -> & Hpre & Hk).
    change (String x (pre +:+ s')) with (String x pre +:+ s') in Hk.
    rewrite consumed_app in Hk.
    exists s', (String x pre). cbn. rewrite Hx, Hpre. auto.
  - cbn [bt]. intros H. apply bt_group in H as (s1 & g1 & H & _).
    now apply IH in H.
Qed.

Lemma search_captures (p : ascii -> bool) (r : regex) (text : string) (m : Match) :
  captures p r -> search r text = Some m ->
  exists c, group1 m = Some c /\ all_chars p c = true /\ c <> "".
Proof.
  intros Hr.
  assert (Hhere : forall s, bt r s None (fun _ g => Some {| group1 := g |}) = Some m ->
                            exists c, group1 m = Some c /\ all_chars p c = true /\ c <> "").
  { intros s Hbt.
    apply (bt_captures p r Hr) in Hbt as (s' & c & Heq & Hc & Hne).
    injection Heq as <-. exists c. auto. }
  induction text as [|x text IH]; cbn [search].
  - destruct (bt r "" None _) as [m'|] eqn:Hbt; [|discriminate].
    intros [= ->]. now apply (Hhere "").
  - destruct (bt r (String x text) None _) as [m'|] eqn:Hbt; [|exact IH].
    intros [= ->]. now apply (Hhere (String x text)).
Qed.

Lemma captures_hospital : captures dot hospital_re.
Proof. repeat constructor. Qed.
Lemma captures_disease : captures dot disease_re.
Proof. repeat constructor. Qed.
Lemma captures_treatment : captures dot treatment_re.
Proof. repeat constructor. Qed.
Lemma captures_patient_name : captures dot patient_name_re.
Proof. repeat constructor. Qed.
Lemma captures_amount : captures (any_of [digit; chr ","; chr "."]) amount_re.
Proof. repeat constructor. Qed.
Lemma captures_claim_id : captures (any_of [word; digit; chr "/"]) claim_id_re.
Proof. repeat constructor. Qed.

Lemma all_chars_lstrip (p : ascii -> bool) (s : string) :
  all_chars p s = true -> all_chars p (Py.lstrip s) = true.
Proof.
  induction s as [|c s IH]; cbn; [trivial|].
  rewrite andb_true_iff. intros [Hc Hs].
  destruct (Py.isspace c); [auto | cbn; now rewrite Hc, Hs].
Qed.

Lemma all_chars_rstrip (p : ascii -> bool) (s : string) :
  all_chars p s = true -> all_chars p (Py.rstrip s) = true.
Proof.
  induction s as [|c s IH]; cbn; [trivial|].
  rewrite andb_true_iff. intros [Hc Hs]. specialize (IH Hs).
  destruct (Py.rstrip s).
  - destruct (Py.isspace c); cbn; [reflexivity | now rewrite Hc].
  - cbn [all_chars] in *. now rewrite Hc, IH.
Qed.

Lemma first_line_single (s : string) : all_chars dot s = true -> first_line s = s.
Proof.
  unfold first_line. intros Hs.
  assert (Py.split "010"%char s = [s]) as ->; [|reflexivity].
  induction s as [|c s IH]; [reflexivity|].
  cbn [all_chars] in Hs. apply andb_true_iff in Hs as [Hc Hs].
  cbn [Py.split]. unfold dot in Hc. apply negb_true_iff in Hc.
  now rewrite Hc, (IH Hs).
Qed.

Lemma strip_trimmed_line (g : string) :
  all_chars dot g = true -> trimmed_line (first_line (Py.strip g)).
Proof.
  intros Hg.
  assert (Hs : all_chars dot (Py.strip g) = true)
    by (unfold Py.strip; now apply all_chars_rstrip, all_chars_lstrip).
  rewrite (first_line_single _ Hs). split; [apply strip_idempotent | exact Hs].
Qed.

(** A text field: a value that is a trimmed line, and the world stays. *)
Lemma line_field (r : regex) (text : string) :
  captures dot r -> sets_group r = true ->
  exists v : string,
    trimmed_line v /\
    forall w,
      match search r text with
      | Some m => g ← group m; mret (first_line (Py.strip g))
      | None => mret ""
      end w = (Ok v, w).
Proof.
  intros Hr Hs. destruct (search r text) as [m|] eqn:Hm.
  - destruct (search_captures dot r text m Hr Hm) as (c & Hc & Hdot & _).
    exists (first_line (Py.strip c)). split; [now apply strip_trimmed_line|].
    intros w. unfold group. rewrite Hc. reflexivity.
  - exists "". split; [split; reflexivity | reflexivity].
Qed.

(** ** The amount *)

Lemma digit_val_bounds (c : ascii) (d : Z) :
  Float.digit_val c = Some d -> 0 <= d <= 9.
Proof.
  unfold Float.digit_val, digit. cbv zeta.
  destruct (_ && _)%bool eqn:Hc; [|discriminate].
  intros [= <-]. apply andb_true_iff in Hc as [Hlo Hhi].
  apply N.leb_le in Hlo, Hhi. lia.
Qed.

Lemma read_decimal_bounds (s : string) :
  forall (seen_dot : bool) (num scale ndigits n d : Z),
    0 <= num -> 0 < scale ->
    Float.read_decimal s seen_dot num scale ndigits = Some (n, d) ->
    0 <= n /\ 0 < d.
Proof.
  induction s as [|c s IH]; intros seen_dot num scale ndigits n d Hnum Hscale;
    cbn [Float.read_decimal].
  - destruct (0 <? ndigits); [|discriminate]. intros [= <- <-]. auto.
  - destruct (Ascii.eqb c "."%char).
    + destruct seen_dot; [discriminate|]. now apply IH.
    + destruct (Float.digit_val c) as [dv|] eqn:Hd; [|discriminate].
      apply digit_val_bounds in Hd. apply IH; [lia|].
      destruct seen_dot; lia.
Qed.

Lemma round_half_even_nonneg (a b : Z) :
  0 <= a -> 0 < b -> 0 <= Float.round_half_even a b.
Proof.
  intros Ha Hb. unfold Float.round_half_even. cbv zeta.
  assert (0 <= a / b) by (apply Z.div_pos; lia).
  destruct (_ <? _); [lia|]. destruct (_ <? _); [lia|].
  destruct (Z.even _); lia.
Qed.

Lemma int_of_nearest_double_nonneg (num den v : Z) :
  0 <= num -> 0 < den ->
  Float.int_of_nearest_double num den = Some v -> 0 <= v.
Proof.
  intros Hnum Hden. unfold Float.int_of_nearest_double. cbv zeta.
  destruct (num =? 0); [intros [= <-]; lia|].
  match goal with |- context [?x <? -1] => set (e := x) end.
  destruct (e <? -1); [intros [= <-]; lia|].
  destruct (0 <=? 52 - e) eqn:Hshift.
  - apply Z.leb_le in Hshift.
    assert (0 < 2 ^ (52 - e)) by (apply Z.pow_pos_nonneg; lia).
    assert (0 <= Float.round_half_even (num * 2 ^ (52 - e)) den)
      by (apply round_half_even_nonneg; nia).
    destruct (2 ^ 1024 <=? _); [discriminate|]. intros [= <-].
    apply Z.div_pos; lia.
  - apply Z.leb_gt in Hshift.
    assert (0 < 2 ^ (- (52 - e))) by (apply Z.pow_pos_nonneg; lia).
    assert (0 <= Float.round_half_even num (den * 2 ^ (- (52 - e))))
      by (apply round_half_even_nonneg; nia).
    destruct (2 ^ 1024 <=? _); [discriminate|]. intros [= <-]. nia.
Qed.

(** The conversion gives a natural number, a ValueError, or the
    overflow error. *)
Lemma int_float_cases (s : string) (w : World) :
  (exists n, 0 <= n /\ outcome (Float.int_float s) w = Ok n)
  \/ (exists msg, outcome (Float.int_float s) w = Raise (ValueError msg))
  \/ outcome (Float.int_float s) w = Raise overflow_error.
Proof.
  unfold outcome, Float.int_float.
  destruct (Float.read_decimal s false 0 1 0) as [[num den]|] eqn:Hread.
  - apply read_decimal_bounds in Hread as [Hnum Hden]; [|lia|lia].
    destruct (Float.int_of_nearest_double num den) as [n|] eqn:Hn.
    + left. exists n. split; [|reflexivity].
      now apply (int_of_nearest_double_nonneg num den).
    + right. right. reflexivity.
  - right. left. now eexists.
Qed.

Lemma int_float_any_world (s : string) (w w' : World) :
  outcome (Float.int_float s) w = outcome (Float.int_float s) w'.
Proof.
  unfold outcome, Float.int_float.
  destruct (Float.read_decimal s false 0 1 0) as [[num den]|]; [|reflexivity].
  destruct (Float.int_of_nearest_double num den); reflexivity.
Qed.

(** Lines 223-226: a ValueError gives 0, the overflow error passes. *)
Lemma guarded_int_float (s : string) :
  exists r : Res Z,
    match r with
    | Ok n => 0 <= n
    | Raise e => e = overflow_error
    end /\
    forall w,
      try_except (Float.int_float s)
        (fun e => match e with
                  | ValueError _ => Some (mret 0)
                  | _ => None
                  end) w = (r, w).
Proof.
  destruct (int_float_cases s empty_world) as [(n & Hn & Hout) | [(msg & Hout) | Hout]].
  - exists (Ok n). split; [exact Hn|]. intros w. unfold try_except.
    rewrite int_float_world, (int_float_any_world s w empty_world), Hout.
    reflexivity.
  - exists (Ok 0). split; [lia|]. intros w. unfold try_except.
    rewrite int_float_world, (int_float_any_world s w empty_world), Hout.
    reflexivity.
  - exists (Raise overflow_error). split; [reflexivity|]. intros w.
    unfold try_except.
    rewrite int_float_world, (int_float_any_world s w empty_world), Hout.
    reflexivity.
Qed.

(** The amount field: a natural number or the overflow error, and the
    world stays. *)
Lemma amount_field (text : string) :
  exists r : Res Z,
    match r with
    | Ok n => 0 <= n
    | Raise e => e = overflow_error
    end /\
    forall w,
      match search amount_re text with
      | Some m =>
          g ← group m;
          let amount_str := Py.strip (Py.remove ","%char g) in
          try_except (Float.int_float amount_str)
            (fun e => match e with
                      | ValueError _ => Some (mret 0)
                      | _ => None
                      end)
      | None => mret 0
      end w = (r, w).
Proof.
  destruct (search amount_re text) as [m|] eqn:Hm.
  2: { exists (Ok 0). split; [lia | reflexivity]. }
  destruct (search_group amount_re text m eq_refl Hm) as [g Hg].
  destruct (guarded_int_float (Py.strip (Py.remove ","%char g))) as (r & Hr & Hrun).
  exists r. split; [exact Hr|]. intros w.
  unfold mbind, M_bind, bind, group. rewrite Hg. cbv zeta.
  unfold mret at 1, M_ret at 1, ret at 1. apply Hrun.
Qed.

(** ** What [parse_fields] gives *)

Lemma parse_fields_spec (text : string) :
  exists (vh vd vt vp vc : string) (ra : Res Z),
    trimmed_line vh /\ trimmed_line vd /\ trimmed_line vt /\ trimmed_line vp
    /\ Py.strip vc = vc
    /\ match ra with Ok n => 0 <= n | Raise e => e = overflow_error end
    /\ forall w,
         parse_fields text w
         = (match ra with
            | Ok n => Ok {| hospital := vh; disease := vd; treatment := vt;
                            amount := n; patientName := vp; claimId := vc |}
            | Raise e => Raise e
            end, w).
Proof.
  destruct (line_field hospital_re text captures_hospital eq_refl) as (vh & Th & Hh).
  destruct (line_field disease_re text captures_disease eq_refl) as (vd & Td & Hd).
  destruct (line_field treatment_re text captures_treatment eq_refl) as (vt & Tt & Ht).
  destruct (line_field patient_name_re text captures_patient_name eq_refl)
    as (vp & Tp & Hp).
  destruct (field_total claim_id_re text Py.strip eq_refl) as (vc & Hcn & Hc).
  destruct (amount_field text) as (ra & Hra & Ha).
  exists vh, vd, vt, vp, vc, ra. repeat (split; [assumption|]).
  split.
  { destruct (search claim_id_re text) as [m|] eqn:Hm.
    - destruct (search_group claim_id_re text m eq_refl Hm) as [g Hg].
      specialize (Hc empty_world). unfold group in Hc. rewrite Hg in Hc.
      injection Hc as <-. apply strip_idempotent.
    - now rewrite Hcn. }
  split; [exact Hra|].
  intros w. unfold parse_fields.
  unfold mbind, M_bind, bind in *. cbv zeta in Ha.
  rewrite Hh, Hd, Ht, Ha.
  destruct ra as [n | e]; [|reflexivity].
  rewrite Hp, Hc. reflexivity.
Qed.

Lemma parse_fields_result (text : string) :
  exists r : Res ClaimData,
    (forall w, parse_fields text w = (r, w))
    /\ ((exists cd, r = Ok cd) \/ r = Raise overflow_error).
Proof.
  destruct (parse_fields_spec text)
    as (vh & vd & vt & vp & vc & ra & _ & _ & _ & _ & _ & Hra & Hrun).
  destruct ra as [n | e].
  - eexists. split; [exact Hrun|]. left. now eexists.
  - exists (Raise e). split; [exact Hrun|]. right. now rewrite Hra.
Qed.

(** X11: parsing changes nothing in the world, and it either yields the
    six fields or fails with the overflow error of [int(float(..))]:
    no other exception leaves it. *)
Theorem parse_fields_total (text : string) :
  exists r : Res ClaimData,
    (forall w, parse_fields text w = (r, w))
    /\ ((exists cd, r = Ok cd) \/ r = Raise overflow_error).
Proof. exact (parse_fields_result text). Qed.

Lemma parsed_fields_normal_aux (text : string) (w : World) (cd : ClaimData) :
  outcome (parse_fields text) w = Ok cd ->
  trimmed_line (hospital cd) /\ trimmed_line (disease cd)
  /\ trimmed_line (treatment cd) /\ trimmed_line (patientName cd)
  /\ Py.strip (claimId cd) = claimId cd /\ 0 <= amount cd.
Proof.
  destruct (parse_fields_spec text)
    as (vh & vd & vt & vp & vc & ra & Th & Td & Tt & Tp & Tc & Hra & Hrun).
  unfold outcome. rewrite Hrun. cbn [fst].
  destruct ra as [n | e]; [|discriminate].
  intros [= <-]. cbn. auto 10.
Qed.

(** X12: the fields the parser yields are already normal: hospital,
    disease, treatment and patient name have no surrounding whitespace
    and no line break, the claim id has no surrounding whitespace, and
    the amount is not negative. *)
Theorem parsed_fields_normal (text : string) (w : World) (cd : ClaimData) :
  outcome (parse_fields text) w = Ok cd ->
  trimmed_line (hospital cd) /\ trimmed_line (disease cd)
  /\ trimmed_line (treatment cd) /\ trimmed_line (patientName cd)
  /\ Py.strip (claimId cd) = claimId cd /\ 0 <= amount cd.
Proof. exact (parsed_fields_normal_aux text w cd). Qed.

Lemma parsed_fields_normal_witness :
  trimmed_line "Apollo Hospital" /\ trimmed_line "Diabetes"
  /\ trimmed_line "Insulin" /\ trimmed_line ""
  /\ Py.strip "" = "" /\ 0 <= 1000.
Proof.
  apply (parsed_fields_normal sample_text booted
           (claim "Apollo Hospital" "Diabetes" "Insulin" 1000)).
  vm_compute. reflexivity.
Defined.

(** * The handler as a whole *)

(** What the [try] block ends with once the upload is saved, the
    extracted text is [text] and the parser ends with [r]. *)
Lemma upload_claim_try_run (env : Env) (file : UploadFile) (w : World)
    (text : string) (r : Res ClaimData) :
  os_open_wb env = None -> shutil_copyfileobj env = None ->
  outcome (extract_text env file (temp_path file)) w = Ok text ->
  text <> "" ->
  (forall w', parse_fields text w' = (r, w')) ->
  outcome (upload_claim_try env file (temp_path file)) w
  = match r with
    | Ok cd => Ok (success cd w)
    | Raise e => Raise e
    end.
Proof.
  intros Hopen Hcopy Htext Hne Hparse.
  destruct (extract_text_returns env file (temp_path file)) as [text' Hret].
  assert (text' = text) as ->.
  { unfold outcome in Htext. destruct (Hret w) as [out Hout].
    rewrite Hout in Htext. now injection Htext. }
  apply truthy_true in Hne.
  unfold outcome, upload_claim_try. rewrite Hopen, Hcopy.
  unfold mbind, M_bind, bind, may_raise, get_world, set_files, mret, M_ret, ret.
  match goal with
  | |- context [extract_text env file (temp_path file) ?w'] =>
      destruct (Hret w') as [out ->]
  end.
  rewrite Hne. cbn [negb]. unfold print, emit. rewrite Hparse.
  destruct r as [cd | e]; [|reflexivity].
  match goal with
  | |- context [check_fraud cd ?hs ?ds ?w'] =>
      destruct (check_fraud_returns cd hs ds w') as [out' ->]
  end.
  reflexivity.
Qed.

(** X13: when the upload is saved, some text is extracted and the parser
    yields fields, the handler answers 200 with exactly those fields and
    with the verdict of [check_fraud] on them against the two module
    frames. *)
Theorem upload_claim_success (env : Env) (file : UploadFile) (w : World)
    (text : string) (cd : ClaimData) :
  os_open_wb env = None -> shutil_copyfileobj env = None ->
  outcome (extract_text env file (temp_path file)) w = Ok text ->
  text <> "" ->
  outcome (parse_fields text) w = Ok cd ->
  outcome (upload_claim env file) w = Ok (success cd w)
  /\ outcome (check_fraud cd (g_hospitals_df w) (g_diseases_df w)) w
     = Ok (fraudStatus (extractedData (success cd w)),
           fraudReason (extractedData (success cd w))).
Proof.
  intros Hopen Hcopy Htext Hne Hcd.
  destruct (parse_fields_result text) as (r & Hrun & _).
  unfold outcome in Hcd. rewrite Hrun in Hcd. cbn [fst] in Hcd. subst r.
  split.
  - rewrite upload_claim_outcome.
    now rewrite (upload_claim_try_run env file w text (Ok cd) Hopen Hcopy Htext Hne Hrun).
  - rewrite check_fraud_outcome. cbn. now destruct (verdict _ _ _).
Qed.

Lemma upload_claim_success_witness :
  outcome (upload_claim (ocr_reads "Hospital Name: AIIMS") scan) booted
  = Ok (success (claim "AIIMS" "" "" 0) booted)
  /\ outcome (check_fraud (claim "AIIMS" "" "" 0) (g_hospitals_df booted)
                          (g_diseases_df booted)) booted
     = Ok (fraudStatus (extractedData (success (claim "AIIMS" "" "" 0) booted)),
           fraudReason (extractedData (success (claim "AIIMS" "" "" 0) booted))).
Proof.
  apply (upload_claim_success (ocr_reads "Hospital Name: AIIMS") scan booted
           "Hospital Name: AIIMS"); try reflexivity.
  discriminate.
Defined.

(** X14: an amount too large for a float is not read as 0: when the
    parser fails, which it does only with the overflow error, the
    handler answers with the internal error 500 carrying that message. *)
Theorem amount_overflow_is_internal_error (env : Env) (file : UploadFile)
    (w : World) (text : string) (e : exn) :
  os_open_wb env = None -> shutil_copyfileobj env = None ->
  outcome (extract_text env file (temp_path file)) w = Ok text ->
  text <> "" ->
  outcome (parse_fields text) w = Raise e ->
  e = overflow_error
  /\ outcome (upload_claim env file) w
     = Raise (HTTPException 500
                "An unexpected error occurred: cannot convert float infinity to integer").
Proof.
  intros Hopen Hcopy Htext Hne He.
  destruct (parse_fields_result text) as (r & Hrun & Hr).
  unfold outcome in He. rewrite Hrun in He. cbn [fst] in He. subst r.
  destruct Hr as [[cd Hcd] | Hr]; [discriminate|]. injection Hr as ->.
  split; [reflexivity|].
  rewrite upload_claim_outcome.
  now rewrite (upload_claim_try_run env file w text _ Hopen Hcopy Htext Hne Hrun).
Qed.

Lemma amount_overflow_is_internal_error_witness :
  overflow_error = overflow_error
  /\ outcome (upload_claim (ocr_reads ("Amount: " +:+ nines 310)) scan) booted
     = Raise (HTTPException 500
                "An unexpected error occurred: cannot convert float infinity to integer").
Proof.
  apply (amount_overflow_is_internal_error (ocr_reads ("Amount: " +:+ nines 310)) scan
           booted ("Amount: " +:+ nines 310) overflow_error);
    [reflexivity | reflexivity | reflexivity | discriminate | vm_compute; reflexivity].
Defined.

(** X15: on the fields the parser yields, rule 1 reads on the field as
    it is: a non-empty hospital absent from the table is fraudulent, and
    a hospital present in the table with an empty disease is never
    fraudulent. *)
Theorem parsed_hospital_rule (text : string) (w : World) (cd : ClaimData)
    (hs : hospitals_frame) (ds : diseases_frame) :
  outcome (parse_fields text) w = Ok cd ->
  (hospital_unknown hs (hospital cd) ->
   outcome (check_fraud cd hs ds) w = fraudulent "Hospital not in dataset")
  /\ (In (hospital cd) hs -> disease cd = "" ->
      outcome (check_fraud cd hs ds) w = suspicious
      \/ outcome (check_fraud cd hs ds) w = clean).
Proof.
  intros Hcd.
  destruct (parsed_fields_normal_aux text w cd Hcd) as ([Hh _] & [Hd _] & _).
  rewrite check_fraud_outcome. unfold fraudulent, suspicious, clean.
  destruct (verdict_cases cd hs ds)
    as [[H1 ->] | [(N1 & H2 & ->) | [(N1 & N2 & H3 & ->) | [(N1 & N2 & N3) ->]]]];
    rewrite ?Hh, ?Hd in *.
  - split; [reflexivity|]. intros Hin _. now destruct H1.
  - split; [contradiction|]. intros _ Hempty. rewrite Hempty in H2. now destruct H2.
  - split; [contradiction|]. intros _ Hempty. rewrite Hempty in H3. now destruct H3.
  - split; [contradiction|]. intros _ _.
    destruct (amount cd >? 500000); auto.
Qed.

Lemma parsed_hospital_rule_witness :
  outcome (check_fraud (claim "City Clinic" "" "" 0) mock_hospitals mock_diseases) booted
  = fraudulent "Hospital not in dataset"
  /\ (outcome (check_fraud (claim "AIIMS" "" "" 0) mock_hospitals mock_diseases) booted
      = suspicious
      \/ outcome (check_fraud (claim "AIIMS" "" "" 0) mock_hospitals mock_diseases) booted
         = clean).
Proof.
  split.
  - apply (parsed_hospital_rule "hospital: City Clinic" booted).
    + vm_compute. reflexivity.
    + split; [discriminate|]. cbn. intuition discriminate.
  - apply (parsed_hospital_rule "Hospital Name: AIIMS" booted).
    + vm_compute. reflexivity.
    + cbn. tauto.
    + reflexivity.
Defined.

(** * The footprint of a request *)

Section Keeps.
Variable R : World -> World -> Prop.
Hypothesis R_refl : forall w, R w w.
Hypothesis R_trans : forall w1 w2 w3, R w1 w2 -> R w2 w3 -> R w1 w3.
Hypothesis R_stdout : forall w out, R w (with_stdout w out).








Lemma keeps_get_world_bind {B} (k : World -> M B) :
  (forall w, R w (world_after (k w) w)) -> keeps R (get_world ≫= k).
Proof. intros Hk w. apply Hk. Qed.



End Keeps.











(** * Exact amounts *)

Lemma int_of_nearest_double_exact (n : Z) :
  0 <= n < 2 ^ 53 -> Float.int_of_nearest_double n 1 = Some n.
Proof.
  intros [Hlo Hhi]. unfold Float.int_of_nearest_double. cbv zeta.
  destruct (Z.eqb_spec n 0) as [-> | Hn]; [reflexivity|].
  assert (Hpos : 0 < n) by lia.
  change (Z.log2 1) with 0. rewrite Z.sub_0_r.
  pose proof (Z.log2_nonneg n) as Hlog0.
  pose proof (proj1 (Z.log2_spec n Hpos)) as Hlog.
  assert (Hlog53 : Z.log2 n < 53) by (apply Z.log2_lt_pow2; lia).
  destruct (Z.leb_spec 0 (Z.log2 n)) as [_ | ?]; [|lia].
  rewrite Z.mul_1_r.
  destruct (Z.leb_spec (2 ^ Z.log2 n) n) as [_ | ?]; [|lia].
  destruct (Z.ltb_spec (Z.log2 n) (-1)) as [? | _]; [lia|].
  destruct (Z.leb_spec 0 (52 - Z.log2 n)) as [_ | ?]; [|lia].
  assert (Hp : 0 < 2 ^ (52 - Z.log2 n)) by (apply Z.pow_pos_nonneg; lia).
  assert (Hm : Float.round_half_even (n * 2 ^ (52 - Z.log2 n)) 1
               = n * 2 ^ (52 - Z.log2 n)).
  { unfold Float.round_half_even. cbv zeta.
    rewrite Z.mod_1_r, Z.div_1_r. reflexivity. }
  rewrite Hm, Z.div_mul by lia.
  assert (Hbig : 2 ^ 53 < 2 ^ 1024) by (apply Z.pow_lt_mono_r; lia).
  destruct (Z.leb_spec (2 ^ 1024) n) as [? | _]; [lia | reflexivity].
Qed.

(** X17: an amount without fractional digits and below 2^53 goes through
    [int(float(..))] unchanged: no rounding occurs. *)
Theorem whole_amount_exact (s : string) (n : Z) (w : World) :
  Float.read_decimal s false 0 1 0 = Some (n, 1) -> n < 2 ^ 53 ->
  outcome (Float.int_float s) w = Ok n.
Proof.
  intros Hread Hn. unfold outcome, Float.int_float. rewrite Hread.
  pose proof (read_decimal_bounds s false 0 1 0 n 1 ltac:(lia) ltac:(lia) Hread)
    as [Hlo _].
  now rewrite int_of_nearest_double_exact by lia.
Qed.

Lemma whole_amount_exact_witness :
  outcome (Float.int_float "9007199254740991") booted = Ok 9007199254740991.
Proof.
  apply whole_amount_exact; [reflexivity | reflexivity].
Defined.
